(** * retool-cli: credential handling and the scaffold pipelines

    A shallow embedding of
      - utils/credentials.ts  (persistCredentials, getCredentials,
        fetchDBCredentials, validateCookies, askForCookies),
      - utils/apps.ts         (getAppsAndFolders, deleteApp, createAppForTable),
      - commands/scaffold.ts  (handler, insertSampleData),
    followed by the properties proved about them.

    Asynchronous functions are modelled in a small monad [Proc] that records
    the observable events of a run (console output, prompts, HTTP requests,
    file writes, calls into modules that are not part of this development),
    threads the credentials file, and stops at [process.exit] or at an
    uncaught exception.  Every [await] is a sequencing point of the monad;
    a [void f(...)] call is a [Detached] event whose body is not waited for.
    The source catches nothing around a detached call: were its promise
    rejected, the process would end at a moment that a sequential run does
    not fix.  A run of the handler is therefore the run in which the
    detached calls do not reject; statements about what a run never does
    hold either way, and a statement that a run goes on past a detached call
    says so among its hypotheses where the call is one of this development. *)

From Stdlib Require Import String Ascii List ZArith Bool Arith Lia.
Import ListNotations.
Open Scope string_scope.
Open Scope list_scope.

(* ===================================================================== *)
(** ** Regular expressions, as used by [validateCookies]                  *)
(* ===================================================================== *)

(** The three patterns of [validateCookies] use only character classes,
    concatenation, alternation, [*], [+] and [{n}], anchored by [^] and [$]
    (no flags).  [String.prototype.match] on such a pattern returns a
    non-null value exactly when the whole string belongs to the regular
    language, which is what the derivative matcher below decides.  Strings
    are sequences of 8-bit characters; every class of the source is a set of
    ASCII characters, so a character outside ASCII fails each of them. *)
Module Regex.

Inductive regex : Type :=
| Void
| Eps
| Class (p : ascii -> bool)
| Cat (r1 r2 : regex)
| Alt (r1 r2 : regex)
| Star (r : regex).

(** [r+] *)
Definition Plus (r : regex) : regex := Cat r (Star r).

(** [r{n}] *)
Fixpoint Rep (n : nat) (r : regex) : regex :=
  match n with
  | O => Eps
  | S n' => Cat r (Rep n' r)
  end.

Fixpoint nullable (r : regex) : bool :=
  match r with
  | Void => false
  | Eps => true
  | Class _ => false
  | Cat r1 r2 => nullable r1 && nullable r2
  | Alt r1 r2 => nullable r1 || nullable r2
  | Star _ => true
  end.

Fixpoint deriv (a : ascii) (r : regex) : regex :=
  match r with
  | Void => Void
  | Eps => Void
  | Class p => if p a then Eps else Void
  | Cat r1 r2 =>
      if nullable r1
      then Alt (Cat (deriv a r1) r2) (deriv a r2)
      else Cat (deriv a r1) r2
  | Alt r1 r2 => Alt (deriv a r1) (deriv a r2)
  | Star r1 => Cat (deriv a r1) (Star r1)
  end.

Fixpoint matchb (r : regex) (s : list ascii) : bool :=
  match s with
  | [] => nullable r
  | a :: s' => matchb (deriv a r) s'
  end.

(** [str.match(/^r$/)] is non-null. *)
Definition test (r : regex) (str : string) : bool :=
  matchb r (list_ascii_of_string str).

(** The language of a pattern, as a relation. *)
Inductive matches : regex -> list ascii -> Prop :=
| MEps : matches Eps []
| MClass p a : p a = true -> matches (Class p) [a]
| MCat r1 r2 s1 s2 :
    matches r1 s1 -> matches r2 s2 -> matches (Cat r1 r2) (s1 ++ s2)
| MAltL r1 r2 s : matches r1 s -> matches (Alt r1 r2) s
| MAltR r1 r2 s : matches r2 s -> matches (Alt r1 r2) s
| MStarNil r : matches (Star r) []
| MStarApp r s1 s2 :
    matches r s1 -> matches (Star r) s2 -> matches (Star r) (s1 ++ s2).

(** Character classes. *)
Definition range (lo hi : ascii) (c : ascii) : bool :=
  Nat.leb (nat_of_ascii lo) (nat_of_ascii c) && Nat.leb (nat_of_ascii c) (nat_of_ascii hi).

Definition one (x : ascii) (c : ascii) : bool := Ascii.eqb x c.

Definition either (p q : ascii -> bool) (c : ascii) : bool := p c || q c.

End Regex.

Import Regex.

Declare Scope regex_scope.
Delimit Scope regex_scope with re.
Infix "@@" := Cat (at level 60, right associativity) : regex_scope.

(** [[0-9a-f]] *)
Definition lower_hex : ascii -> bool := either (range "0" "9") (range "a" "f").
(** [[89ab]] *)
Definition variant_nibble : ascii -> bool :=
  either (either (one "8") (one "9")) (either (one "a") (one "b")).
(** [\w] is [[A-Za-z0-9_]]; [[\w-]] adds the dash. *)
Definition word_char : ascii -> bool :=
  either (either (range "A" "Z") (range "a" "z")) (either (range "0" "9") (one "_")).
Definition word_or_dash : ascii -> bool := either word_char (one "-").
(** [[a-zA-Z0-9]] and [[a-zA-Z0-9\-]] *)
Definition alnum : ascii -> bool :=
  either (either (range "a" "z") (range "A" "Z")) (range "0" "9").
Definition alnum_or_dash : ascii -> bool := either alnum (one "-").

(** /^[0-9a-f]{8}-[0-9a-f]{4}-4[0-9a-f]{3}-[89ab][0-9a-f]{3}-[0-9a-f]{12}$/ *)
Definition uuidRegEx : regex :=
  (Rep 8 (Class lower_hex) @@ Class (one "-") @@
   Rep 4 (Class lower_hex) @@ Class (one "-") @@
   Class (one "4") @@ Rep 3 (Class lower_hex) @@ Class (one "-") @@
   Class variant_nibble @@ Rep 3 (Class lower_hex) @@ Class (one "-") @@
   Rep 12 (Class lower_hex))%re.

(** /^[\w-]+\.[\w-]+\.[\w-]+$/ *)
Definition jwtRegEx : regex :=
  (Plus (Class word_or_dash) @@ Class (one ".") @@
   Plus (Class word_or_dash) @@ Class (one ".") @@
   Plus (Class word_or_dash))%re.

(** /^(([a-zA-Z0-9]|[a-zA-Z0-9][a-zA-Z0-9\-]*[a-zA-Z0-9])\.)*
      ([A-Za-z0-9]|[A-Za-z0-9][A-Za-z0-9\-]*[A-Za-z0-9])$/ *)
Definition hostname_label : regex :=
  Alt (Class alnum) (Class alnum @@ Star (Class alnum_or_dash) @@ Class alnum)%re.
Definition hostnameRegEx : regex :=
  (Star (hostname_label @@ Class (one ".")) @@ hostname_label)%re.

(* ===================================================================== *)
(** ** Data model                                                         *)
(* ===================================================================== *)

(** [Credentials] of utils/credentials.ts.  An optional property is an
    [option]; [JSON.stringify] leaves out a property whose value is
    [undefined], which is [None] here. *)
Record Credentials : Type := mkCredentials {
  domain : string;
  xsrf : string;
  accessToken : string;
  gridId : option string;
  retoolDBUuid : option string;
  hasConnectionString : option bool;
  firstName : option string;
  lastName : option string;
  email : option string
}.

(** The value the commands obtain from [getAndVerifyCredentialsWithRetoolDB]
    (a function of utils/credentials.ts that is not part of this development).
    The commands and utils/apps.ts read its [origin] property besides the
    properties of [Credentials]. *)
Record Session : Type := mkSession {
  origin : string;
  stored : Credentials
}.

(** An element of [resources.data.resources] in [fetchDBCredentials]. *)
Module Resource.
Record t : Type := mk { displayName : string; name : string }.
End Resource.

(** [grid.data.gridInfo] in [fetchDBCredentials]: both properties are read
    through optional chaining. *)
Module GridInfo.
Record t : Type := mk { id : option string; connectionString : option string }.
End GridInfo.

(** [App] and [Folder] of utils/apps.ts. *)
Module App.
Record t : Type := mk {
  uuid : string;
  name : string;
  folderId : Z;
  id : string;
  protected : bool;
  updatedAt : string;
  createdAt : string;
  isGlobalWidget : bool
}.
End App.

Module Folder.
Record t : Type := mk {
  id : Z;
  parentFolderId : Z;
  name : string;
  systemFolder : bool;
  createdAt : string;
  updatedAt : string;
  folderType : string;
  accessLevel : string
}.
End Folder.

(** [fetchAppsResponse.data] in [getAppsAndFolders]. *)
Record PagesData : Type := mkPagesData {
  pages : option (list App.t);
  folders : option (list Folder.t)
}.

(** [OutputFormat] of commands/apps.ts. *)
Inductive OutputFormat : Type := FormatDefault | FormatJson.

(** The parsed command line of [retool scaffold].  [argv] has type [any] in
    the source: [force] stands for a [--force] given on the command line,
    which the scaffold builder does not declare and the handler never reads. *)
Module Argv.
Record t : Type := mk {
  name : option string;
  columns : option (list string);
  delete : option string;
  f : option (list string);
  no_workflow : bool;
  force : bool
}.
End Argv.

(* ===================================================================== *)
(** ** Events, outcomes and the world a run talks to                      *)
(* ===================================================================== *)

(** Calls into modules that are not part of this development (utils/table,
    utils/workflows, utils/telemetry, and the login half of
    utils/credentials), with the arguments the code passes (credentials and
    constant flags left out, except the confirmation flags). *)
Inductive call : Type :=
| GetAndVerifyCredentialsWithRetoolDB
| LogDAU
| CollectTableName
| CollectColumnNames
| CreateTable (tableName : string) (colNames : list string)
| CreateTableFromCSV (csvFileName : string)
| DeleteTable (tableName : string) (confirmDeletion : bool)
| DeleteWorkflow (workflowName : string) (confirmDeletion : bool)
| GenerateCRUDWorkflow (tableName : string)
| GenerateDataWithGPT (tableName : string)
| InsertSampleData (tableName : string).

Inductive event : Type :=
| ConsoleLog (text : string)
| ConsoleError (text : string)
| Prompt (message : string)
| Input (message : string)
| GetRequest (url : string)
| PostRequest (url : string) (body : list (string * option string))
| WriteCredentials (credentials : Credentials)
| Await (c : call)
| Detached (c : call).

(** How a computation ends: it returns, the process exits
    ([process.exit(code)]), or an exception is thrown and not caught. *)
Inductive result (A : Type) : Type :=
| Returned (a : A)
| Exited (code : Z)
| Thrown (error : string).
Arguments Returned {A} a.
Arguments Exited {A} code.
Arguments Thrown {A} error.

(** Everything outside the program that a run depends on: what the user
    answers, what the remote services reply, how the calls into the other
    modules end, and whether the credentials file can be written. *)
Record World : Type := mkWorld {
  answer_confirm : string -> bool;
  answer_input : string -> string;
  resources_reply : string -> result (option (list Resource.t));
  grid_reply : string -> result GridInfo.t;
  pages_reply : string -> result PagesData;
  (* [data.pageUuid] and the JSON text of [data] *)
  autogenerate_reply : list (string * option string) -> result (option string * string);
  (* the JSON text of [data] *)
  deletePage_reply : list (string * option string) -> result string;
  table_info_reply : string -> result unit;
  bulk_insert_reply : list (string * option string) -> result unit;
  getAndVerifyCredentialsWithRetoolDB_end : result Session;
  collectTableName_end : result string;
  collectColumnNames_end : result (list string);
  createTable_end : string -> list string -> result unit;
  createTableFromCSV_end : string -> result (string * list string);
  deleteTable_end : string -> result unit;
  deleteWorkflow_end : string -> result unit;
  generateCRUDWorkflow_end : string -> result unit;
  (* the JSON text of the generated rows, when there are any *)
  generateDataWithGPT_end : string -> result (option string);
  file_writable : bool
}.

(** The credentials file at [CREDENTIALS_PATH]: absent, or holding the JSON
    text of one [Credentials] value. *)
Definition Disk : Type := option Credentials.

Definition Proc (A : Type) : Type := Disk -> list event * Disk * result A.

Definition ret {A : Type} (a : A) : Proc A := fun d => ([], d, Returned a).

Definition bind {A B : Type} (m : Proc A) (k : A -> Proc B) : Proc B :=
  fun d =>
    match m d with
    | (t1, d1, Returned a) =>
        match k a d1 with
        | (t2, d2, r) => (t1 ++ t2, d2, r)
        end
    | (t1, d1, Exited code) => (t1, d1, Exited code)
    | (t1, d1, Thrown e) => (t1, d1, Thrown e)
    end.

Declare Scope proc_scope.
Delimit Scope proc_scope with proc.
Notation "x <- m ;; k" := (bind m (fun x => k))
  (at level 100, m at next level, right associativity) : proc_scope.
Notation "m ;; k" := (bind m (fun _ => k))
  (at level 100, right associativity) : proc_scope.
Open Scope proc_scope.

Definition emit (e : event) : Proc unit := fun d => ([e], d, Returned tt).

(** [process.exit(code)] *)
Definition exit {A : Type} (code : Z) : Proc A := fun d => ([], d, Exited code).

Definition throw {A : Type} (error : string) : Proc A := fun d => ([], d, Thrown error).

(** The end of an awaited promise whose outcome the world decides. *)
Definition settle {A : Type} (r : result A) : Proc A := fun d => ([], d, r).

Definition await {A : Type} (c : call) (r : result A) : Proc A :=
  emit (Await c) ;; settle r.

Definition trace {A : Type} (run : list event * Disk * result A) : list event :=
  fst (fst run).
Definition disk_after {A : Type} (run : list event * Disk * result A) : Disk :=
  snd (fst run).
Definition outcome {A : Type} (run : list event * Disk * result A) : result A :=
  snd run.

Definition LF : string := String (ascii_of_nat 10) EmptyString.

(** JavaScript truthiness of an optional string: [undefined] and the empty
    string are falsy. *)
Definition truthy (s : option string) : option string :=
  match s with
  | Some str => if String.eqb str "" then None else Some str
  | None => None
  end.

(** [xs?.length < 1]: the comparison is false when [xs] is [undefined]. *)
Definition length_below_1 {A : Type} (xs : option (list A)) : bool :=
  match xs with
  | Some l => Nat.ltb (List.length l) 1
  | None => false
  end.

(** [xs?.length != 1]: the comparison is true when [xs] is [undefined]. *)
Definition length_not_1 {A : Type} (xs : option (list A)) : bool :=
  match xs with
  | Some l => negb (Nat.eqb (List.length l) 1)
  | None => true
  end.

(** [s?.length > 0] *)
Definition length_above_0 (s : option string) : bool :=
  match s with
  | Some str => Nat.ltb 0 (String.length str)
  | None => false
  end.

(** [for (const x of xs) { await body(x) }] *)
Fixpoint for_of {A : Type} (xs : list A) (body : A -> Proc unit) : Proc unit :=
  match xs with
  | [] => ret tt
  | x :: rest => body x ;; for_of rest body
  end.

Section Program.

Variable W : World.

Definition getRequest {A : Type} (url : string) (reply : string -> result A) : Proc A :=
  emit (GetRequest url) ;; settle (reply url).

Definition postRequest {A : Type} (url : string) (body : list (string * option string))
    (reply : list (string * option string) -> result A) : Proc A :=
  emit (PostRequest url body) ;; settle (reply body).

(** [inquirer.prompt] with one question of type confirm. *)
Definition confirm (message : string) : Proc bool :=
  emit (Prompt message) ;; ret (answer_confirm W message).

(** [inquirer.prompt] question of type input, identified by its name. *)
Definition input (question : string) : Proc string :=
  emit (Input question) ;; ret (answer_input W question).

(* --------------------------------------------------------------------- *)
(** *** utils/credentials.ts                                              *)
(* --------------------------------------------------------------------- *)

(** Persist credentials to disk at CREDENTIALS_PATH.  The write replaces the
    whole file; when it throws, the error is reported and the process exits
    with code 1 (the file is taken to be left as it was). *)
Definition persistCredentials (credentials : Credentials) : Proc unit :=
  fun d =>
    if file_writable W
    then ([WriteCredentials credentials], Some credentials, Returned tt)
    else ([WriteCredentials credentials;
           ConsoleError "Error saving credentials to disk, exiting: "],
          d, Exited 1).

(** Get credentials from disk. *)
Definition getCredentials : Proc (option Credentials) :=
  fun d => ([], d, Returned d).

(** Check if credentials exist on disk. *)
Definition doCredentialsExist : Proc bool :=
  fun d => ([], d, Returned (match d with Some _ => true | None => false end)).

(** Delete credentials from disk if they exist.  [unlink_error] is what the
    file system makes of the removal: the error [fs.unlinkSync] throws when
    the file cannot be removed, or none.  The call is not guarded, so the
    error leaves the function, and the file stays. *)
Definition deleteCredentials (unlink_error : option string) : Proc unit :=
  fun d =>
    match d with
    | None => ([ConsoleLog "No credentials found! To log in, run: retool login"],
               d, Returned tt)
    | Some _ =>
        match unlink_error with
        | Some error => ([], d, Thrown error)
        | None => ([], None, Returned tt)
        end
    end.

(** Fetch gridId and retoolDBUuid from Retool. Persist to disk. *)
Definition fetchDBCredentials : Proc unit :=
  credentials <- getCredentials ;;
  match credentials with
  | None => ret tt
  | Some credentials =>
      (* 1. Fetch all resources *)
      resources <- getRequest ("https://" ++ domain credentials ++ "/api/resources")
                     (resources_reply W) ;;
      (* 2. Filter down to Retool DB UUID *)
      let retoolDBs :=
        option_map
          (filter (fun resource => String.eqb (Resource.displayName resource) "retool_db"))
          resources in
      if length_below_1 retoolDBs then
        emit (ConsoleLog (LF ++ "Error: Retool DB not found. Create one at https://"
                             ++ domain credentials ++ "/resources")) ;;
        ret tt
      else
        match retoolDBs with
        | Some (first :: _) =>
            let retoolDBUuid := Resource.name first in
            (* 3. Fetch Grid Info *)
            grid <- getRequest ("https://" ++ domain credentials ++ "/api/grid/retooldb/"
                                  ++ retoolDBUuid ++ "?env=production")
                      (grid_reply W) ;;
            persistCredentials
              {| domain := domain credentials;
                 xsrf := xsrf credentials;
                 accessToken := accessToken credentials;
                 gridId := GridInfo.id grid;
                 retoolDBUuid := Some retoolDBUuid;
                 hasConnectionString :=
                   Some (length_above_0 (GridInfo.connectionString grid));
                 firstName := firstName credentials;
                 lastName := lastName credentials;
                 email := email credentials |}
        | _ =>
            (* [retoolDBs] is undefined: indexing it throws *)
            throw "TypeError"
        end
  end.

Definition validateCookies (credentials : Credentials) : Proc unit :=
  (if negb (Regex.test uuidRegEx (xsrf credentials)) then
     emit (ConsoleLog "Error: XSRF token is invalid.") ;; exit 1
   else ret tt) ;;
  (if negb (Regex.test jwtRegEx (accessToken credentials)) then
     emit (ConsoleLog "Error: Access token is invalid.") ;; exit 1
   else ret tt) ;;
  (if negb (Regex.test hostnameRegEx (domain credentials)) then
     emit (ConsoleLog "Error: Domain is invalid.") ;; exit 1
   else ret tt).

(** Legacy way of getting credentials. *)
Definition askForCookies : Proc unit :=
  domain_answer <- input "domain" ;;
  xsrf_answer <- input "xsrf" ;;
  accessToken_answer <- input "accessToken" ;;
  let answer :=
    {| domain := domain_answer; xsrf := xsrf_answer; accessToken := accessToken_answer;
       gridId := None; retoolDBUuid := None; hasConnectionString := None;
       firstName := None; lastName := None; email := None |} in
  validateCookies answer ;;
  persistCredentials answer ;;
  emit (ConsoleLog "Successfully saved credentials.").

(* --------------------------------------------------------------------- *)
(** *** utils/apps.ts                                                     *)
(* --------------------------------------------------------------------- *)

(** A template literal prints an absent property as the word undefined. *)
Definition interpolate (s : option string) : string :=
  match s with
  | Some str => str
  | None => "undefined"
  end.

(** [folders?.find(...)?.id] against [app.folderId !== trashFolderId]. *)
Definition differs_from (trashFolderId : option Z) (folderId : Z) : bool :=
  match trashFolderId with
  | Some t => negb (Z.eqb folderId t)
  | None => true
  end.

(** Fetch all apps (excluding apps in trash). *)
Definition getAppsAndFolders (credentials : Session)
    : Proc (option (list App.t) * option (list Folder.t)) :=
  fetchAppsResponse <- getRequest (origin credentials ++ "/api/pages?mobileAppsOnly=false")
                         (pages_reply W) ;;
  let apps := pages fetchAppsResponse in
  let folders := folders fetchAppsResponse in
  let trashFolderId :=
    match folders with
    | Some fs =>
        option_map Folder.id
          (find (fun folder => String.eqb (Folder.name folder) "archive"
                               && Bool.eqb (Folder.systemFolder folder) true) fs)
    | None => None
    end in
  ret (option_map (filter (fun app => differs_from trashFolderId (App.folderId app))) apps,
       folders).

(** Spinners and the bold styling of the console text are not modelled. *)
Definition createAppForTable (appName tableName columnName : string)
    (credentials : Session) (format : OutputFormat) : Proc unit :=
  createAppResult <-
    postRequest (origin credentials ++ "/api/pages/autogeneratePage")
      [("appName", Some appName);
       ("resourceName", retoolDBUuid (stored credentials));
       ("tableName", Some tableName);
       ("columnName", Some columnName)]
      (autogenerate_reply W) ;;
  match truthy (fst createAppResult) with
  | None =>
      emit (ConsoleError "Error creating app.") ;;
      emit (ConsoleError (snd createAppResult)) ;;
      exit 1
  | Some pageUuid =>
      match format with
      | FormatJson => emit (ConsoleLog (snd createAppResult))
      | FormatDefault =>
          emit (ConsoleLog "Successfully created an App. 🎉") ;;
          emit (ConsoleLog ("View in browser: " ++ origin credentials
                              ++ "/editor/" ++ pageUuid))
      end
  end.

Definition deleteApp (appName : string) (credentials : Session)
    (confirmDeletion : bool) (outputFormat : OutputFormat) : Proc unit :=
  (if confirmDeletion then
     confirmed <- confirm ("Are you sure you want to delete " ++ appName ++ "?") ;;
     if negb confirmed then exit 0 else ret tt
   else ret tt) ;;
  (* Verify that the provided appName exists. *)
  fetched <- getAppsAndFolders credentials ;;
  let app := option_map (filter (fun app => String.eqb (App.name app) appName))
               (fst fetched) in
  if length_not_1 app then
    emit (ConsoleError ("0 or >1 Apps named " ++ appName ++ " found. 😓")) ;;
    exit 1
  else
    match app with
    | Some (app0 :: _) =>
        (* Delete the app. *)
        deleteAppResult <-
          postRequest (origin credentials ++ "/api/folders/deletePage")
            [("pageId", Some (App.id app0))] (deletePage_reply W) ;;
        match outputFormat with
        | FormatJson => emit (ConsoleLog deleteAppResult)
        | FormatDefault => emit (ConsoleLog ("Deleted " ++ appName ++ " app. 🗑️"))
        end
    | _ => throw "TypeError"
    end.

(* --------------------------------------------------------------------- *)
(** *** commands/scaffold.ts                                              *)
(* --------------------------------------------------------------------- *)

Definition insertSampleData (tableName : string) (credentials : Session) : Proc unit :=
  getRequest (origin credentials ++ "/api/grid/" ++ interpolate (gridId (stored credentials))
                ++ "/table/" ++ tableName ++ "/info")
    (table_info_reply W) ;;
  generatedData <- await (GenerateDataWithGPT tableName)
                     (generateDataWithGPT_end W tableName) ;;
  match truthy generatedData with
  | Some rows =>
      postRequest (origin credentials ++ "/api/grid/"
                     ++ interpolate (gridId (stored credentials)) ++ "/action")
        [("kind", Some "BulkInsertIntoTable");
         ("tableName", Some tableName);
         ("additions", Some rows)]
        (bulk_insert_reply W)
  | None => ret tt
  end.

(** The search column both creating branches pass to [createAppForTable]:
    [colNames.length > 0 ? colNames[0] : "id"]. *)
Definition searchColumnName (colNames : list string) : string :=
  match colNames with
  | first :: _ => first
  | [] => "id"
  end.

Definition handler (argv : Argv.t) : Proc unit :=
  credentials <- await GetAndVerifyCredentialsWithRetoolDB
                   (getAndVerifyCredentialsWithRetoolDB_end W) ;;
  (* fire and forget *)
  emit (Detached LogDAU) ;;
  let format := FormatDefault in
  match truthy (Argv.delete argv) with
  | Some tableName =>
      (* Handle `retool scaffold -d <db_name>` *)
      let workflowName := (tableName ++ " CRUD Workflow")%string in
      (* Confirm deletion. *)
      confirmed <- confirm ("Are you sure you want to delete " ++ tableName
                              ++ " table, CRUD workflow and app?") ;;
      (if negb confirmed then exit 0 else ret tt) ;;
      await (DeleteTable tableName false) (deleteTable_end W tableName) ;;
      await (DeleteWorkflow workflowName false) (deleteWorkflow_end W workflowName) ;;
      deleteApp (tableName ++ " App") credentials false format
  | None =>
      match Argv.f argv with
      | Some csvFileNames =>
          (* Handle `retool scaffold -f <path-to-csv>` *)
          for_of csvFileNames (fun csvFileName =>
            created <- await (CreateTableFromCSV csvFileName)
                         (createTableFromCSV_end W csvFileName) ;;
            let tableName := fst created in
            let colNames := snd created in
            (if negb (Argv.no_workflow argv) then
               emit (ConsoleLog LF) ;;
               await (GenerateCRUDWorkflow tableName) (generateCRUDWorkflow_end W tableName)
             else ret tt) ;;
            emit (ConsoleLog LF) ;;
            createAppForTable (tableName ++ " App") tableName (searchColumnName colNames)
              credentials format ;;
            emit (ConsoleLog ""))
      | None =>
          (* Handle `retool scaffold` *)
          tableName <-
            match truthy (Argv.name argv) with
            | Some given => ret given
            | None => await CollectTableName (collectTableName_end W)
            end ;;
          colNames <-
            match Argv.columns argv with
            | Some (c :: cs) => ret (c :: cs)
            | _ => await CollectColumnNames (collectColumnNames_end W)
            end ;;
          await (CreateTable tableName colNames) (createTable_end W tableName colNames) ;;
          (* Fire and forget *)
          emit (Detached (InsertSampleData tableName)) ;;
          (if negb (Argv.no_workflow argv) then
             emit (ConsoleLog LF) ;;
             await (GenerateCRUDWorkflow tableName) (generateCRUDWorkflow_end W tableName)
           else ret tt) ;;
          emit (ConsoleLog LF) ;;
          createAppForTable (tableName ++ " App") tableName (searchColumnName colNames)
            credentials format
      end
  end.

End Program.

(* ===================================================================== *)
(** ** The specification's vocabulary                                     *)
(* ===================================================================== *)

(** A group of [n] hexadecimal digits, for a given notion of digit. *)
Definition hex_group (hex : ascii -> bool) (n : nat) (g : list ascii) : Prop :=
  List.length g = n /\ forallb hex g = true.

(** UUID version-4 canonical form: five dash-separated groups of 8, 4, 4, 4
    and 12 hexadecimal digits, the third group starting with the version
    nibble 4 and the fourth with a variant nibble. *)
Definition uuid_v4_canonical (hex variant : ascii -> bool) (s : string) : Prop :=
  exists g1 g2 g3 g4 g5 v,
    list_ascii_of_string s
      = g1 ++ "-"%char :: g2 ++ "-"%char :: ("4"%char :: g3) ++ "-"%char
           :: (v :: g4) ++ "-"%char :: g5
    /\ hex_group hex 8 g1 /\ hex_group hex 4 g2 /\ hex_group hex 3 g3
    /\ variant v = true /\ hex_group hex 3 g4 /\ hex_group hex 12 g5.

(** Hexadecimal digits written in either case. *)
Definition any_case_hex : ascii -> bool := either lower_hex (range "A" "F").

(** The base fields of a credential record, in the order of validation. *)
Inductive field : Type := SessionToken | AccessToken | Domain.

Definition validation_order : list field := [SessionToken; AccessToken; Domain].

Definition malformed (credentials : Credentials) (fld : field) : bool :=
  match fld with
  | SessionToken => negb (Regex.test uuidRegEx (xsrf credentials))
  | AccessToken => negb (Regex.test jwtRegEx (accessToken credentials))
  | Domain => negb (Regex.test hostnameRegEx (domain credentials))
  end.

Definition first_malformed (credentials : Credentials) : option field :=
  find (malformed credentials) validation_order.

Definition validation_message (fld : field) : string :=
  match fld with
  | SessionToken => "Error: XSRF token is invalid."
  | AccessToken => "Error: Access token is invalid."
  | Domain => "Error: Domain is invalid."
  end.

(** The search column as the specification words it: the first column that
    is not the identifier column, or the identifier column when there is
    none. *)
Definition first_non_identifier_column (identifier : string) (colNames : list string)
    : string :=
  match find (fun c => negb (String.eqb c identifier)) colNames with
  | Some c => c
  | None => identifier
  end.

(** Whether [needle] occurs in [text]. *)
Fixpoint occurs_in (needle text : string) : bool :=
  String.prefix needle text
  || match text with
     | EmptyString => false
     | String _ rest => occurs_in needle rest
     end.

Definition is_retool_db (resource : Resource.t) : bool :=
  String.eqb (Resource.displayName resource) "retool_db".

Definition resources_url (credentials : Credentials) : string :=
  "https://" ++ domain credentials ++ "/api/resources".

Definition grid_url (credentials : Credentials) (retoolDBUuid : string) : string :=
  "https://" ++ domain credentials ++ "/api/grid/retooldb/" ++ retoolDBUuid
    ++ "?env=production".

Definition not_found_message (credentials : Credentials) : string :=
  LF ++ "Error: Retool DB not found. Create one at https://"
     ++ domain credentials ++ "/resources".

Definition scaffold_delete_question (tableName : string) : string :=
  "Are you sure you want to delete " ++ tableName ++ " table, CRUD workflow and app?".

Definition delete_app_question (appName : string) : string :=
  "Are you sure you want to delete " ++ appName ++ "?".

Definition pages_url (credentials : Session) : string :=
  origin credentials ++ "/api/pages?mobileAppsOnly=false".

Definition autogenerate_url (credentials : Session) : string :=
  origin credentials ++ "/api/pages/autogeneratePage".

Definition not_one_app_message (appName : string) : string :=
  "0 or >1 Apps named " ++ appName ++ " found. 😓".

(** The record [fetchDBCredentials] hands to [persistCredentials]. *)
Definition merged_record (credentials : Credentials) (retoolDB : Resource.t)
    (grid : GridInfo.t) : Credentials :=
  {| domain := domain credentials;
     xsrf := xsrf credentials;
     accessToken := accessToken credentials;
     gridId := GridInfo.id grid;
     retoolDBUuid := Some (Resource.name retoolDB);
     hasConnectionString := Some (length_above_0 (GridInfo.connectionString grid));
     firstName := firstName credentials;
     lastName := lastName credentials;
     email := email credentials |}.

(** The apps of a listing that carry a given name; none when the listing
    is absent. *)
Definition named (appName : string) (apps : option (list App.t)) : list App.t :=
  match apps with
  | Some l => filter (fun app => String.eqb (App.name app) appName) l
  | None => []
  end.

(** A run that starts with the events [t] and goes on as [run]. *)
Definition after {A : Type} (t : list event) (run : list event * Disk * result A)
    : list event * Disk * result A :=
  (t ++ trace run, disk_after run, outcome run).

(** Events by kind. *)
Definition is_generate_workflow (e : event) : bool :=
  match e with
  | Await (GenerateCRUDWorkflow _) => true
  | _ => false
  end.

Definition is_post (e : event) : bool :=
  match e with
  | PostRequest _ _ => true
  | _ => false
  end.

(** A computation none of whose runs emits an event satisfying [bad]. *)
Definition never_emits {A : Type} (bad : event -> bool) (m : Proc A) : Prop :=
  forall d, forallb (fun e => negb (bad e)) (trace (m d)) = true.

(* ===================================================================== *)
(** ** Sample data                                                        *)
(* ===================================================================== *)

Definition sample_credentials : Credentials :=
  {| domain := "my-org.retool.com";
     xsrf := "26725f72-8129-47f7-835a-cba0e5dbcfe6";
     accessToken := "header.payload.signature";
     gridId := None; retoolDBUuid := None; hasConnectionString := None;
     firstName := Some "Ada"; lastName := None; email := None |}.

Definition sample_session : Session :=
  {| origin := "https://my-org.retool.com";
     stored :=
       {| domain := "my-org.retool.com";
          xsrf := "26725f72-8129-47f7-835a-cba0e5dbcfe6";
          accessToken := "header.payload.signature";
          gridId := Some "grid-1"; retoolDBUuid := Some "db-uuid-1";
          hasConnectionString := Some true;
          firstName := Some "Ada"; lastName := None; email := None |} |}.

Definition app_named (appName ident : string) : App.t :=
  {| App.uuid := ident; App.name := appName; App.folderId := 1%Z; App.id := ident;
     App.protected := false; App.updatedAt := "2023-08-01T00:00:00Z";
     App.createdAt := "2023-08-01T00:00:00Z"; App.isGlobalWidget := false |}.

Definition sample_grid : GridInfo.t :=
  {| GridInfo.id := Some "grid-1";
     GridInfo.connectionString := Some "postgresql://retool@db/retool" |}.

(** A world in which every request succeeds, parameterised by the user's
    answer to confirmations, the listed resources and apps, and the ends of
    [deleteTable] and [generateCRUDWorkflow]. *)
Definition sample_world (confirmed : bool) (resources : list Resource.t)
    (apps : list App.t) (deleteTable_result generate_result : result unit) : World :=
  {| answer_confirm := fun _ => confirmed;
     answer_input := fun _ => "";
     resources_reply := fun _ => Returned (Some resources);
     grid_reply := fun _ => Returned sample_grid;
     pages_reply := fun _ => Returned {| pages := Some apps; folders := Some [] |};
     autogenerate_reply := fun _ => Returned (Some "page-uuid-1", "{}");
     deletePage_reply := fun _ => Returned "{}";
     table_info_reply := fun _ => Returned tt;
     bulk_insert_reply := fun _ => Returned tt;
     getAndVerifyCredentialsWithRetoolDB_end := Returned sample_session;
     collectTableName_end := Returned "orders";
     collectColumnNames_end := Returned ["name"];
     createTable_end := fun _ _ => Returned tt;
     createTableFromCSV_end := fun _ => Returned ("orders", ["name"]);
     deleteTable_end := fun _ => deleteTable_result;
     deleteWorkflow_end := fun _ => Returned tt;
     generateCRUDWorkflow_end := fun _ => generate_result;
     generateDataWithGPT_end := fun _ => Returned None;
     file_writable := true |}.

Definition scaffold_create (tableName : string) (colNames : list string)
    (no_workflow : bool) : Argv.t :=
  {| Argv.name := Some tableName; Argv.columns := Some colNames; Argv.delete := None;
     Argv.f := None; Argv.no_workflow := no_workflow; Argv.force := false |}.

Definition scaffold_delete (tableName : string) (force : bool) : Argv.t :=
  {| Argv.name := None; Argv.columns := None; Argv.delete := Some tableName;
     Argv.f := None; Argv.no_workflow := false; Argv.force := force |}.

(* ===================================================================== *)
(** ** Further vocabulary: token shapes, event kinds, sample values       *)
(* ===================================================================== *)

(** A non-empty run of word characters and dashes: one segment of an access
    token. *)
Definition token_segment (seg : list ascii) : Prop :=
  seg <> [] /\ forallb word_or_dash seg = true.

(** Three segments separated by dots. *)
Definition three_segment_token (s : string) : Prop :=
  exists a b c,
    list_ascii_of_string s = a ++ "."%char :: b ++ "."%char :: c
    /\ token_segment a /\ token_segment b /\ token_segment c.

(** A host name label: letters, digits and hyphens, at least one character,
    the first and the last of which are not hyphens. *)
Definition dns_label (l : list ascii) : Prop :=
  exists first,
    hd_error l = Some first
    /\ alnum first = true
    /\ alnum (last l first) = true
    /\ forallb alnum_or_dash l = true.

(** One or more labels, separated by dots. *)
Definition dotted_labels (s : string) : Prop :=
  exists labels final,
    Forall dns_label labels
    /\ dns_label final
    /\ list_ascii_of_string s
       = concat (map (fun l => l ++ ["."%char]) labels) ++ final.

(** A base field of a record is well formed: the session token is a
    canonical version-4 UUID in lowercase digits, the access token has three
    segments, the domain is a dotted list of labels. *)
Definition well_formed (credentials : Credentials) (fld : field) : Prop :=
  match fld with
  | SessionToken => uuid_v4_canonical lower_hex variant_nibble (xsrf credentials)
  | AccessToken => three_segment_token (accessToken credentials)
  | Domain => dotted_labels (domain credentials)
  end.

(** A record whose only fault is its domain: the first label starts and
    ends with a hyphen. *)
Definition only_domain_malformed : Credentials :=
  {| domain := "-bad-.example";
     xsrf := "26725f72-8129-47f7-835a-cba0e5dbcfe6";
     accessToken := "header.payload.signature";
     gridId := None; retoolDBUuid := None; hasConnectionString := None;
     firstName := None; lastName := None; email := None |}.

(** The archive folder test of [getAppsAndFolders]. *)
Definition is_archive (folder : Folder.t) : bool :=
  String.eqb (Folder.name folder) "archive" && Bool.eqb (Folder.systemFolder folder) true.

Definition delete_page_url (credentials : Session) : string :=
  origin credentials ++ "/api/folders/deletePage".

Definition deleted_message (appName : string) : string :=
  "Deleted " ++ appName ++ " app. 🗑️".

(** The record [askForCookies] builds from the three answers. *)
Definition login_record (domain_answer xsrf_answer accessToken_answer : string)
    : Credentials :=
  {| domain := domain_answer; xsrf := xsrf_answer; accessToken := accessToken_answer;
     gridId := None; retoolDBUuid := None; hasConnectionString := None;
     firstName := None; lastName := None; email := None |}.

(** More events by kind. *)
Definition is_prompt (e : event) : bool :=
  match e with
  | Prompt _ => true
  | _ => false
  end.

Definition is_write (e : event) : bool :=
  match e with
  | WriteCredentials _ => true
  | _ => false
  end.

(** Requests and console output. *)
Definition is_plain_io (e : event) : bool :=
  match e with
  | GetRequest _ | PostRequest _ _ | ConsoleLog _ | ConsoleError _ => true
  | _ => false
  end.






Definition is_from_csv (e : event) : bool :=
  match e with
  | Await (CreateTableFromCSV _) => true
  | _ => false
  end.

(** The CSV files a trace creates tables from, in order. *)
Definition csv_files_of (t : list event) : list string :=
  flat_map (fun e => match e with
                     | Await (CreateTableFromCSV csvFileName) => [csvFileName]
                     | _ => []
                     end) t.

(** The POST requests of a trace: their URLs, in order. *)
Definition posts_of (t : list event) : list string :=
  flat_map (fun e => match e with
                     | PostRequest url _ => [url]
                     | _ => []
                     end) t.

(** The command line with its delete option dropped. *)
Definition without_delete (argv : Argv.t) : Argv.t :=
  {| Argv.name := Argv.name argv; Argv.columns := Argv.columns argv;
     Argv.delete := None; Argv.f := Argv.f argv;
     Argv.no_workflow := Argv.no_workflow argv; Argv.force := Argv.force argv |}.

Definition archive_folder : Folder.t :=
  {| Folder.id := 7%Z; Folder.parentFolderId := 0%Z; Folder.name := "archive";
     Folder.systemFolder := true; Folder.createdAt := "2023-01-01T00:00:00Z";
     Folder.updatedAt := "2023-01-01T00:00:00Z"; Folder.folderType := "app";
     Folder.accessLevel := "own" |}.

Definition archived_app (appName ident : string) : App.t :=
  {| App.uuid := ident; App.name := appName; App.folderId := 7%Z; App.id := ident;
     App.protected := false; App.updatedAt := "2023-08-01T00:00:00Z";
     App.createdAt := "2023-08-01T00:00:00Z"; App.isGlobalWidget := false |}.

(** A world like [sample_world] with choices for the answers to input
    questions, the listing of apps and folders, the reply to the creation of
    an app, and whether the credentials file is writable. *)
Definition sample_world_with (answers : string -> string) (listing : PagesData)
    (created : option string * string) (writable : bool)
    (resources : option (list Resource.t)) : World :=
  {| answer_confirm := fun _ => true;
     answer_input := answers;
     resources_reply := fun _ => Returned resources;
     grid_reply := fun _ => Returned sample_grid;
     pages_reply := fun _ => Returned listing;
     autogenerate_reply := fun _ => Returned created;
     deletePage_reply := fun _ => Returned "{}";
     table_info_reply := fun _ => Returned tt;
     bulk_insert_reply := fun _ => Returned tt;
     getAndVerifyCredentialsWithRetoolDB_end := Returned sample_session;
     collectTableName_end := Returned "orders";
     collectColumnNames_end := Returned [];
     createTable_end := fun _ _ => Returned tt;
     createTableFromCSV_end :=
       fun csvFileName =>
         if String.eqb csvFileName "broken.csv" then Exited 1%Z
         else Returned (csvFileName, ["name"]);
     deleteTable_end := fun _ => Returned tt;
     deleteWorkflow_end := fun _ => Returned tt;
     generateCRUDWorkflow_end := fun _ => Returned tt;
     generateDataWithGPT_end := fun _ => Returned None;
     file_writable := writable |}.


Definition login_answers (question : string) : string :=
  if String.eqb question "domain" then "my-org.retool.com"
  else if String.eqb question "xsrf" then "26725f72-8129-47f7-835a-cba0e5dbcfe6"
  else "header.payload.signature".

Definition scaffold_from_csv (csvFileNames : list string) (no_workflow : bool) : Argv.t :=
  {| Argv.name := Some "ignored"; Argv.columns := Some ["ignored"]; Argv.delete := None;
     Argv.f := Some csvFileNames; Argv.no_workflow := no_workflow; Argv.force := false |}.

(* ===================================================================== *)
(** ** The matcher decides the language of a pattern                      *)
(* ===================================================================== *)

Module RegexFacts.

Lemma nullable_sound (r : regex) : nullable r = true -> matches r [].
Proof.
  induction r; simpl; intros H; try discriminate.
  - constructor.
  - apply andb_true_iff in H as [H1 H2].
    apply (MCat r1 r2 [] []); auto.
  - apply orb_true_iff in H as [H | H]; [apply MAltL | apply MAltR]; auto.
  - constructor.
Qed.

Lemma nullable_complete (r : regex) (s : list ascii) :
  matches r s -> s = [] -> nullable r = true.
Proof.
  induction 1; simpl; intros E; try discriminate; auto.
  - apply app_eq_nil in E as [E1 E2]. rewrite IHmatches1, IHmatches2; auto.
  - rewrite IHmatches; auto.
  - rewrite IHmatches; auto using orb_true_r.
Qed.

Lemma deriv_sound (a : ascii) (r : regex) :
  forall s, matches (deriv a r) s -> matches r (a :: s).
Proof.
  induction r; simpl; intros s H.
  - inversion H.
  - inversion H.
  - destruct (p a) eqn:Hp; inversion H; subst. now constructor.
  - destruct (nullable r1) eqn:N.
    + inversion H as [ | | | ? ? ? HL | ? ? ? HR | | ]; subst.
      * inversion HL; subst.
        apply (MCat r1 r2 (a :: s1) s2); auto.
      * apply (MCat r1 r2 [] (a :: s)); auto using nullable_sound.
    + inversion H; subst.
      apply (MCat r1 r2 (a :: s1) s2); auto.
  - inversion H; subst; [apply MAltL | apply MAltR]; auto.
  - inversion H; subst.
    apply (MStarApp r (a :: s1) s2); auto.
Qed.

Lemma deriv_complete (r : regex) (s' : list ascii) :
  matches r s' -> forall a s, s' = a :: s -> matches (deriv a r) s.
Proof.
  induction 1; intros b t E; simpl; try discriminate.
  - injection E as E1 E2. subst. rewrite H. constructor.
  - destruct s1 as [ | x s1'].
    + simpl in E. subst s2.
      rewrite (nullable_complete _ _ H eq_refl).
      apply MAltR. now apply IHmatches2.
    + simpl in E. injection E as E1 E2. subst.
      destruct (nullable r1).
      * apply MAltL. constructor; auto.
      * constructor; auto.
  - apply MAltL; auto.
  - apply MAltR; auto.
  - destruct s1 as [ | x s1'].
    + simpl in E. now apply IHmatches2.
    + simpl in E. injection E as E1 E2. subst. constructor; auto.
Qed.

Lemma matchb_matches (s : list ascii) :
  forall r, matchb r s = true <-> matches r s.
Proof.
  induction s as [ | a s IH]; intros r; simpl.
  - split; [apply nullable_sound | intros H; now apply (nullable_complete r [])].
  - rewrite IH. split; [apply deriv_sound | intros H; now apply (deriv_complete r (a :: s))].
Qed.

Lemma matches_class (p : ascii -> bool) (s : list ascii) :
  matches (Class p) s <-> exists a, s = [a] /\ p a = true.
Proof.
  split.
  - inversion 1; subst; eauto.
  - intros (a & -> & H). now constructor.
Qed.

Lemma matches_cat (r1 r2 : regex) (s : list ascii) :
  matches (Cat r1 r2) s <->
  exists s1 s2, s = s1 ++ s2 /\ matches r1 s1 /\ matches r2 s2.
Proof.
  split.
  - inversion 1; subst; eauto.
  - intros (s1 & s2 & -> & H1 & H2). now constructor.
Qed.

(** A class repeated [n] times matches the strings of [n] such characters. *)
Lemma matches_rep_class (p : ascii -> bool) (n : nat) :
  forall s, matches (Rep n (Class p)) s <-> hex_group p n s.
Proof.
  unfold hex_group. induction n as [ | n IH]; intros s; simpl.
  - split.
    + inversion 1; auto.
    + intros [L _]. destruct s; [constructor | discriminate].
  - rewrite matches_cat. split.
    + intros (s1 & s2 & -> & H1 & H2).
      apply matches_class in H1 as (a & -> & Ha).
      apply IH in H2 as [L F]. simpl. rewrite Ha, F, L. auto.
    + intros [L F]. destruct s as [ | a s]; [discriminate | ].
      simpl in L, F. apply andb_true_iff in F as [Ha F].
      exists [a], s. repeat split.
      * now constructor.
      * apply IH. split; congruence.
Qed.

(** [c r] matches a [c]-character followed by a match of [r]. *)
Lemma matches_class_then (p : ascii -> bool) (r : regex) (s : list ascii) :
  matches (Cat (Class p) r) s <-> exists a t, s = a :: t /\ p a = true /\ matches r t.
Proof.
  rewrite matches_cat. split.
  - intros (s1 & s2 & -> & H1 & H2).
    apply matches_class in H1 as (a & -> & Ha). simpl. eauto.
  - intros (a & t & -> & Ha & H). exists [a], t. repeat split; auto. now constructor.
Qed.

(** [c{n} r] matches a group of [n] [c]-characters followed by a match of [r]. *)
Lemma matches_group_then (p : ascii -> bool) (n : nat) (r : regex) (s : list ascii) :
  matches (Cat (Rep n (Class p)) r) s <->
  exists g t, s = g ++ t /\ hex_group p n g /\ matches r t.
Proof.
  rewrite matches_cat. split.
  - intros (s1 & s2 & -> & H1 & H2). apply matches_rep_class in H1. eauto.
  - intros (g & t & -> & Hg & H). apply matches_rep_class in Hg. eauto.
Qed.

Lemma one_true (x c : ascii) : one x c = true <-> c = x.
Proof.
  unfold one. rewrite Ascii.eqb_eq. split; congruence.
Qed.

End RegexFacts.

(* ===================================================================== *)
(** ** Runs of [Proc] computations                                        *)
(* ===================================================================== *)

Module ProcFacts.

Lemma never_emits_ret {A : Type} (bad : event -> bool) (a : A) :
  never_emits bad (ret a).
Proof. intros d. reflexivity. Qed.

Lemma never_emits_exit {A : Type} (bad : event -> bool) (code : Z) :
  never_emits bad (@exit A code).
Proof. intros d. reflexivity. Qed.

Lemma never_emits_throw {A : Type} (bad : event -> bool) (error : string) :
  never_emits bad (@throw A error).
Proof. intros d. reflexivity. Qed.

Lemma never_emits_settle {A : Type} (bad : event -> bool) (r : result A) :
  never_emits bad (settle r).
Proof. intros d. reflexivity. Qed.

Lemma never_emits_emit (bad : event -> bool) (e : event) :
  bad e = false -> never_emits bad (emit e).
Proof. intros H d. unfold emit, trace. simpl. now rewrite H. Qed.

Lemma never_emits_bind {A B : Type} (bad : event -> bool) (m : Proc A) (k : A -> Proc B) :
  never_emits bad m -> (forall a, never_emits bad (k a)) -> never_emits bad (bind m k).
Proof.
  intros Hm Hk d. unfold bind. specialize (Hm d).
  destruct (m d) as [[t1 d1] [a | code | error]]; simpl in *; auto.
  specialize (Hk a d1).
  destruct (k a d1) as [[t2 d2] r]; unfold trace in *; simpl in *.
  rewrite forallb_app, Hm, Hk. reflexivity.
Qed.

Lemma never_emits_await {A : Type} (bad : event -> bool) (c : call) (r : result A) :
  bad (Await c) = false -> never_emits bad (await c r).
Proof.
  intros H. apply never_emits_bind; [now apply never_emits_emit | ].
  intros _. apply never_emits_settle.
Qed.

Lemma never_emits_for_of {A : Type} (bad : event -> bool) (body : A -> Proc unit)
    (xs : list A) :
  (forall x, never_emits bad (body x)) -> never_emits bad (for_of xs body).
Proof.
  intros H. induction xs as [ | x xs IH]; simpl.
  - apply never_emits_ret.
  - apply never_emits_bind; auto.
Qed.

(** One step of a proof that a computation never emits an event of a kind:
    decompose the computation along its syntax. *)
Ltac quiet_step :=
  lazymatch goal with
  | |- never_emits _ (bind _ _) => apply never_emits_bind; [ | intros ? ]
  | |- never_emits _ (ret _) => apply never_emits_ret
  | |- never_emits _ (exit _) => apply never_emits_exit
  | |- never_emits _ (throw _) => apply never_emits_throw
  | |- never_emits _ (settle _) => apply never_emits_settle
  | |- never_emits _ (emit _) => apply never_emits_emit; reflexivity
  | |- never_emits _ (await _ _) => apply never_emits_await; reflexivity
  | |- never_emits _ (for_of _ _) => apply never_emits_for_of; intros ?
  | |- never_emits _ (match ?x with _ => _ end) => destruct x
  end.

Ltac quiet := repeat quiet_step.

Lemma getRequest_no_workflow {A : Type} (url : string) (reply : string -> result A) :
  never_emits is_generate_workflow (getRequest url reply).
Proof. unfold getRequest. quiet. Qed.

Lemma postRequest_no_workflow {A : Type} (url : string) (body : list (string * option string))
    (reply : list (string * option string) -> result A) :
  never_emits is_generate_workflow (postRequest url body reply).
Proof. unfold postRequest. quiet. Qed.

Lemma createAppForTable_no_workflow (W : World) (appName tableName columnName : string)
    (credentials : Session) (format : OutputFormat) :
  never_emits is_generate_workflow
    (createAppForTable W appName tableName columnName credentials format).
Proof.
  unfold createAppForTable.
  apply never_emits_bind; [apply postRequest_no_workflow | intros ?]. quiet.
Qed.

Lemma deleteApp_no_workflow (W : World) (appName : string) (credentials : Session)
    (confirmDeletion : bool) (outputFormat : OutputFormat) :
  never_emits is_generate_workflow
    (deleteApp W appName credentials confirmDeletion outputFormat).
Proof.
  unfold deleteApp, getAppsAndFolders, confirm.
  apply never_emits_bind; [quiet | intros _].
  apply never_emits_bind.
  - apply never_emits_bind; [apply getRequest_no_workflow | intros ?]. quiet.
  - intros fetched.
    destruct (length_not_1 _); [quiet | ].
    destruct (option_map _ _) as [[ | app0 rest] | ]; try solve [quiet].
    apply never_emits_bind; [apply postRequest_no_workflow | intros ?]. quiet.
Qed.

End ProcFacts.

(* ===================================================================== *)
(** ** Credential validation                                              *)
(* ===================================================================== *)

Import RegexFacts.

(** The session-token pattern accepts exactly the canonical version-4 UUIDs
    written with lowercase digits. *)
Lemma uuidRegEx_canonical (s : string) :
  Regex.test uuidRegEx s = true <-> uuid_v4_canonical lower_hex variant_nibble s.
Proof.
  unfold Regex.test, uuid_v4_canonical, uuidRegEx.
  rewrite matchb_matches. generalize (list_ascii_of_string s) as l. intros l. split.
  - intros H.
    apply matches_group_then in H as (g1 & t & -> & G1 & H).
    apply matches_class_then in H as (c & t' & -> & C & H). apply one_true in C as ->.
    apply matches_group_then in H as (g2 & t & -> & G2 & H).
    apply matches_class_then in H as (c & t' & -> & C & H). apply one_true in C as ->.
    apply matches_class_then in H as (c & t & -> & C & H). apply one_true in C as ->.
    apply matches_group_then in H as (g3 & t' & -> & G3 & H).
    apply matches_class_then in H as (c & t & -> & C & H). apply one_true in C as ->.
    apply matches_class_then in H as (v & t' & -> & V & H).
    apply matches_group_then in H as (g4 & t & -> & G4 & H).
    apply matches_class_then in H as (c & t' & -> & C & H). apply one_true in C as ->.
    apply matches_rep_class in H.
    exists g1, g2, g3, g4, t', v. split; [reflexivity | tauto].
  - intros (g1 & g2 & g3 & g4 & g5 & v & -> & G1 & G2 & G3 & V & G4 & G5).
    apply matches_group_then. exists g1. eexists. repeat split; try apply G1.
    apply matches_class_then. do 2 eexists. repeat split.
    apply matches_group_then. exists g2. eexists. repeat split; try apply G2.
    apply matches_class_then. do 2 eexists. repeat split.
    apply matches_class_then. do 2 eexists. repeat split.
    apply matches_group_then. exists g3. eexists. repeat split; try apply G3.
    apply matches_class_then. do 2 eexists. repeat split.
    apply matches_class_then. do 2 eexists. split; [reflexivity | split; [exact V | ]].
    apply matches_group_then. exists g4. eexists. repeat split; try apply G4.
    apply matches_class_then. do 2 eexists. repeat split.
    now apply matches_rep_class.
Qed.

(** The patterns on the examples the login prompts give, and on near misses. *)
Example uuidRegEx_accepts_prompt_example :
  Regex.test uuidRegEx "26725f72-8129-47f7-835a-cba0e5dbcfe6" = true.
Proof. reflexivity. Qed.

Example uuidRegEx_rejects_version_1 :
  Regex.test uuidRegEx "26725f72-8129-17f7-835a-cba0e5dbcfe6" = false.
Proof. reflexivity. Qed.

Example jwtRegEx_needs_three_segments :
  Regex.test jwtRegEx "header.payload.signature" = true
  /\ Regex.test jwtRegEx "header.payload" = false
  /\ Regex.test jwtRegEx "header..signature" = false.
Proof. repeat split; reflexivity. Qed.

Example hostnameRegEx_labels :
  Regex.test hostnameRegEx "my-org.retool.com" = true
  /\ Regex.test hostnameRegEx "-my-org.retool.com" = false
  /\ Regex.test hostnameRegEx "https://my-org.retool.com" = false.
Proof. repeat split; reflexivity. Qed.

(** The run of [validateCookies], by the first field that fails its pattern. *)
Lemma validateCookies_run (credentials : Credentials) (d : Disk) :
  validateCookies credentials d =
  match first_malformed credentials with
  | Some fld => ([ConsoleLog (validation_message fld)], d, Exited 1%Z)
  | None => ([], d, Returned tt)
  end.
Proof.
  unfold validateCookies, first_malformed, validation_order, malformed. simpl find.
  unfold bind, emit, exit, ret.
  destruct (Regex.test uuidRegEx (xsrf credentials)); simpl; [ | reflexivity].
  destruct (Regex.test jwtRegEx (accessToken credentials)); simpl; [ | reflexivity].
  destruct (Regex.test hostnameRegEx (domain credentials)); reflexivity.
Qed.

(** C9, as amended: [validateCookies] accepts a session token (does not
    report it as invalid) if and only if it is a canonical version-4 UUID
    written with lowercase hexadecimal digits: groups of 8, 4, 4, 4 and 12
    digits of 0-9a-f, version nibble 4, variant nibble among 8, 9, a, b. *)
Theorem C9_session_token_accepted_iff_lowercase_uuid_v4
    (credentials : Credentials) (d : Disk) :
  uuid_v4_canonical lower_hex variant_nibble (xsrf credentials) <->
  validateCookies credentials d
    <> ([ConsoleLog "Error: XSRF token is invalid."], d, Exited 1%Z).
Proof.
  rewrite <- uuidRegEx_canonical, validateCookies_run.
  unfold first_malformed, validation_order, malformed. simpl find.
  destruct (Regex.test uuidRegEx (xsrf credentials)); simpl.
  - split; [intros _ | reflexivity].
    destruct (Regex.test jwtRegEx (accessToken credentials)); simpl;
      [destruct (Regex.test hostnameRegEx (domain credentials)); simpl | ];
      discriminate.
  - split; [discriminate | intros H; now contradiction H].
Qed.

(** C9, as stated, fails: a token of the canonical shape written with
    uppercase hexadecimal digits is reported as invalid. *)
Lemma C9_uppercase_token_rejected :
  uuid_v4_canonical any_case_hex variant_nibble "26725F72-8129-47F7-835A-CBA0E5DBCFE6"
  /\ validateCookies
       {| domain := "my-org.retool.com";
          xsrf := "26725F72-8129-47F7-835A-CBA0E5DBCFE6";
          accessToken := "header.payload.signature";
          gridId := None; retoolDBUuid := None; hasConnectionString := None;
          firstName := None; lastName := None; email := None |} None
     = ([ConsoleLog "Error: XSRF token is invalid."], None, Exited 1%Z).
Proof.
  split; [ | reflexivity].
  exists (list_ascii_of_string "26725F72"), (list_ascii_of_string "8129"),
    (list_ascii_of_string "7F7"), (list_ascii_of_string "35A"),
    (list_ascii_of_string "CBA0E5DBCFE6"), "8"%char.
  unfold hex_group. repeat split; reflexivity.
Qed.

(* ===================================================================== *)
(** ** Resolving the database credentials                                 *)
(* ===================================================================== *)

Lemma filter_is_retool_db_none (resources : list Resource.t) :
  (forall r, In r resources -> Resource.displayName r <> "retool_db") ->
  filter is_retool_db resources = [].
Proof.
  induction resources as [ | r rs IH]; intros H; simpl; [reflexivity | ].
  unfold is_retool_db at 1.
  destruct (String.eqb_spec (Resource.displayName r) "retool_db") as [E | _].
  - exfalso. apply (H r); [now left | exact E].
  - apply IH. intros r' Hr'. apply H. now right.
Qed.

Lemma filter_is_retool_db_first (before after : list Resource.t) (first : Resource.t) :
  (forall r, In r before -> is_retool_db r = false) ->
  is_retool_db first = true ->
  filter is_retool_db (before ++ first :: after) = first :: filter is_retool_db after.
Proof.
  intros Hb Hf. induction before as [ | r rs IH]; simpl.
  - now rewrite Hf.
  - rewrite (Hb r) by now left. apply IH. intros r' Hr'. apply Hb. now right.
Qed.

Lemma length_above_0_true (s : option string) :
  length_above_0 s = true <-> exists str, s = Some str /\ str <> "".
Proof.
  destruct s as [[ | c str] | ]; simpl; split; try discriminate.
  - intros (str & E & N). injection E as <-. now contradiction N.
  - intros _. eexists. split; [reflexivity | discriminate].
  - reflexivity.
  - intros (str & E & _). discriminate.
Qed.

(** The run of [fetchDBCredentials] when the listing holds no resource
    displayed as retool_db. *)
Lemma fetchDBCredentials_not_found (W : World) (credentials : Credentials)
    (resources : list Resource.t) :
  resources_reply W (resources_url credentials) = Returned (Some resources) ->
  filter is_retool_db resources = [] ->
  fetchDBCredentials W (Some credentials)
  = ([GetRequest (resources_url credentials);
      ConsoleLog (not_found_message credentials)],
     Some credentials, Returned tt).
Proof.
  intros Hres Hnone.
  unfold fetchDBCredentials, getCredentials, getRequest, bind at 1.
  unfold bind at 1. unfold bind at 1. unfold emit at 1, settle at 1.
  fold (resources_url credentials). rewrite Hres.
  unfold option_map. fold is_retool_db. rewrite Hnone. reflexivity.
Qed.

(** The run of [fetchDBCredentials] when the listing holds at least one
    resource displayed as retool_db: the first of them is resolved. *)
Lemma fetchDBCredentials_found (W : World) (credentials : Credentials)
    (resources others : list Resource.t) (first : Resource.t) (grid : GridInfo.t) :
  resources_reply W (resources_url credentials) = Returned (Some resources) ->
  filter is_retool_db resources = first :: others ->
  grid_reply W (grid_url credentials (Resource.name first)) = Returned grid ->
  file_writable W = true ->
  fetchDBCredentials W (Some credentials)
  = ([GetRequest (resources_url credentials);
      GetRequest (grid_url credentials (Resource.name first));
      WriteCredentials (merged_record credentials first grid)],
     Some (merged_record credentials first grid), Returned tt).
Proof.
  intros Hres Hfirst Hgrid Hw.
  unfold fetchDBCredentials, getCredentials, getRequest, bind at 1.
  unfold bind at 1. unfold bind at 1. unfold emit at 1, settle at 1.
  fold (resources_url credentials). rewrite Hres.
  unfold option_map. fold is_retool_db. rewrite Hfirst.
  cbv beta iota delta [length_below_1 List.length Nat.ltb Nat.leb fst snd app].
  unfold bind at 1. unfold bind at 1. unfold emit at 1, settle at 1.
  fold (grid_url credentials (Resource.name first)). rewrite Hgrid.
  unfold persistCredentials. rewrite Hw. reflexivity.
Qed.

(** C4: when the listed resources hold none displayed as retool_db,
    [fetchDBCredentials] reports that the Retool DB was not found and
    returns; it never calls [persistCredentials], and the credentials file
    holds the same record as before. *)
Theorem C4_no_retool_db_reports_not_found_and_keeps_record
    (W : World) (credentials : Credentials) (resources : list Resource.t) :
  resources_reply W (resources_url credentials) = Returned (Some resources) ->
  (forall r, In r resources -> Resource.displayName r <> "retool_db") ->
  fetchDBCredentials W (Some credentials)
  = ([GetRequest (resources_url credentials);
      ConsoleLog (not_found_message credentials)],
     Some credentials, Returned tt).
Proof.
  intros Hres Hnone. apply (fetchDBCredentials_not_found W credentials resources Hres).
  now apply filter_is_retool_db_none.
Qed.

Lemma C4_witness :
  fetchDBCredentials
    (sample_world true [Resource.mk "postgres" "r1"; Resource.mk "rest_api" "r2"] []
       (Returned tt) (Returned tt))
    (Some sample_credentials)
  = ([GetRequest "https://my-org.retool.com/api/resources";
      ConsoleLog (not_found_message sample_credentials)],
     Some sample_credentials, Returned tt).
Proof.
  apply (C4_no_retool_db_reports_not_found_and_keeps_record
           (sample_world true [Resource.mk "postgres" "r1"; Resource.mk "rest_api" "r2"] []
              (Returned tt) (Returned tt))
           sample_credentials
           [Resource.mk "postgres" "r1"; Resource.mk "rest_api" "r2"]).
  - reflexivity.
  - simpl. intros r [<- | [<- | []]]; simpl; discriminate.
Defined.

(** C5: with exactly one resource displayed as retool_db,
    [fetchDBCredentials] persists a record whose base and profile fields are
    those of the record it read, whose [retoolDBUuid] is the name of the
    matched resource, whose [gridId] is the identifier of the fetched grid,
    and whose [hasConnectionString] is true exactly when the grid has a
    non-empty connection string. *)
Theorem C5_single_match_persists_merged_record
    (W : World) (credentials : Credentials) (resources : list Resource.t)
    (retoolDB : Resource.t) (grid : GridInfo.t) :
  resources_reply W (resources_url credentials) = Returned (Some resources) ->
  filter is_retool_db resources = [retoolDB] ->
  grid_reply W (grid_url credentials (Resource.name retoolDB)) = Returned grid ->
  file_writable W = true ->
  exists merged flag,
    fetchDBCredentials W (Some credentials)
    = ([GetRequest (resources_url credentials);
        GetRequest (grid_url credentials (Resource.name retoolDB));
        WriteCredentials merged],
       Some merged, Returned tt)
    /\ domain merged = domain credentials
    /\ xsrf merged = xsrf credentials
    /\ accessToken merged = accessToken credentials
    /\ firstName merged = firstName credentials
    /\ lastName merged = lastName credentials
    /\ email merged = email credentials
    /\ retoolDBUuid merged = Some (Resource.name retoolDB)
    /\ gridId merged = GridInfo.id grid
    /\ hasConnectionString merged = Some flag
    /\ (flag = true <->
        exists str, GridInfo.connectionString grid = Some str /\ str <> "").
Proof.
  intros Hres Hone Hgrid Hw.
  exists (merged_record credentials retoolDB grid),
    (length_above_0 (GridInfo.connectionString grid)).
  rewrite (fetchDBCredentials_found W credentials resources [] retoolDB grid Hres Hone Hgrid Hw).
  repeat split; try reflexivity; apply length_above_0_true; assumption.
Qed.

Lemma C5_witness :
  exists merged,
    disk_after
      (fetchDBCredentials
         (sample_world true [Resource.mk "rest_api" "r1"; Resource.mk "retool_db" "db-uuid-1"] []
            (Returned tt) (Returned tt))
         (Some sample_credentials)) = Some merged
    /\ firstName merged = Some "Ada"
    /\ retoolDBUuid merged = Some "db-uuid-1"
    /\ gridId merged = Some "grid-1"
    /\ hasConnectionString merged = Some true.
Proof.
  destruct (C5_single_match_persists_merged_record
              (sample_world true
                 [Resource.mk "rest_api" "r1"; Resource.mk "retool_db" "db-uuid-1"] []
                 (Returned tt) (Returned tt))
              sample_credentials
              [Resource.mk "rest_api" "r1"; Resource.mk "retool_db" "db-uuid-1"]
              (Resource.mk "retool_db" "db-uuid-1") sample_grid
              eq_refl eq_refl eq_refl eq_refl)
    as (merged & flag & Hrun & _ & _ & _ & Hfirst & _ & _ & Huuid & Hgrid & Hflag & Hiff).
  exists merged. rewrite Hrun. repeat split; try assumption.
  rewrite Hflag. f_equal. apply Hiff. eexists. split; [reflexivity | discriminate].
Defined.

(** C10: with two or more resources displayed as retool_db,
    [fetchDBCredentials] reports no error: it takes the first of them in the
    order of the listing, fetches the grid of that resource and persists its
    name as [retoolDBUuid]. *)
Theorem C10_first_of_several_matches_is_resolved
    (W : World) (credentials : Credentials) (before after : list Resource.t)
    (first : Resource.t) (grid : GridInfo.t) :
  resources_reply W (resources_url credentials)
    = Returned (Some (before ++ first :: after)) ->
  (forall r, In r before -> is_retool_db r = false) ->
  is_retool_db first = true ->
  (exists other, In other after /\ is_retool_db other = true) ->
  grid_reply W (grid_url credentials (Resource.name first)) = Returned grid ->
  file_writable W = true ->
  exists merged,
    fetchDBCredentials W (Some credentials)
    = ([GetRequest (resources_url credentials);
        GetRequest (grid_url credentials (Resource.name first));
        WriteCredentials merged],
       Some merged, Returned tt)
    /\ retoolDBUuid merged = Some (Resource.name first).
Proof.
  intros Hres Hbefore Hfirst _ Hgrid Hw.
  exists (merged_record credentials first grid). split; [ | reflexivity].
  apply (fetchDBCredentials_found W credentials (before ++ first :: after)
           (filter is_retool_db after) first grid); auto.
  now apply filter_is_retool_db_first.
Qed.

Lemma C10_witness :
  exists merged,
    fetchDBCredentials
      (sample_world true
         [Resource.mk "rest_api" "r0"; Resource.mk "retool_db" "db-A";
          Resource.mk "retool_db" "db-B"] [] (Returned tt) (Returned tt))
      (Some sample_credentials)
    = ([GetRequest "https://my-org.retool.com/api/resources";
        GetRequest "https://my-org.retool.com/api/grid/retooldb/db-A?env=production";
        WriteCredentials merged],
       Some merged, Returned tt)
    /\ retoolDBUuid merged = Some "db-A".
Proof.
  apply (C10_first_of_several_matches_is_resolved
           (sample_world true
              [Resource.mk "rest_api" "r0"; Resource.mk "retool_db" "db-A";
               Resource.mk "retool_db" "db-B"] [] (Returned tt) (Returned tt))
           sample_credentials
           [Resource.mk "rest_api" "r0"] [Resource.mk "retool_db" "db-B"]
           (Resource.mk "retool_db" "db-A") sample_grid).
  - reflexivity.
  - simpl. intros r [<- | []]. reflexivity.
  - reflexivity.
  - exists (Resource.mk "retool_db" "db-B"). split; [now left | reflexivity].
  - reflexivity.
  - reflexivity.
Defined.

(* ===================================================================== *)
(** ** Deleting an app by name                                            *)
(* ===================================================================== *)

(** The run of [deleteApp] when the listing does not hold exactly one app
    of the given name, the user having confirmed when asked. *)
Lemma deleteApp_not_one (W : World) (appName : string) (credentials : Session)
    (confirmDeletion : bool) (outputFormat : OutputFormat) (d : Disk)
    (apps : option (list App.t)) (folders : option (list Folder.t)) :
  (confirmDeletion = true -> answer_confirm W (delete_app_question appName) = true) ->
  getAppsAndFolders W credentials d
    = ([GetRequest (pages_url credentials)], d, Returned (apps, folders)) ->
  List.length (named appName apps) <> 1 ->
  deleteApp W appName credentials confirmDeletion outputFormat d
  = ((if confirmDeletion then [Prompt (delete_app_question appName)] else [])
       ++ [GetRequest (pages_url credentials);
           ConsoleError (not_one_app_message appName)],
     d, Exited 1%Z).
Proof.
  intros Hconfirmed Hfetch Hcount.
  assert (Hnot : length_not_1
                   (option_map (filter (fun app => String.eqb (App.name app) appName)) apps)
                 = true).
  { destruct apps as [l | ]; simpl in *; [ | reflexivity].
    apply negb_true_iff, Nat.eqb_neq. exact Hcount. }
  unfold deleteApp. unfold bind at 1.
  destruct confirmDeletion.
  - unfold bind at 1. unfold confirm at 1. unfold bind at 1. unfold emit at 1, ret at 1.
    fold (delete_app_question appName). rewrite (Hconfirmed eq_refl).
    cbv beta iota delta [negb]. unfold ret at 1.
    unfold bind at 1. rewrite Hfetch.
    cbv beta iota delta [fst snd]. rewrite Hnot. reflexivity.
  - unfold ret at 1. unfold bind at 1. rewrite Hfetch.
    cbv beta iota delta [fst snd]. rewrite Hnot. reflexivity.
Qed.

(** C3, as amended: when the apps listed (outside the archive) do not hold
    exactly one app of the given name, whether none or several, [deleteApp]
    (after the confirmation, when it asks for one) sends no delete request:
    it writes one fixed message, the same in both cases and silent about the
    actual count, to the error stream, and the process exits with code 1. *)
Theorem C3_delete_app_without_single_match_exits_1
    (W : World) (appName : string) (credentials : Session)
    (confirmDeletion : bool) (outputFormat : OutputFormat) (d : Disk)
    (apps : option (list App.t)) (folders : option (list Folder.t)) :
  (confirmDeletion = true -> answer_confirm W (delete_app_question appName) = true) ->
  getAppsAndFolders W credentials d
    = ([GetRequest (pages_url credentials)], d, Returned (apps, folders)) ->
  List.length (named appName apps) <> 1 ->
  deleteApp W appName credentials confirmDeletion outputFormat d
  = ((if confirmDeletion then [Prompt (delete_app_question appName)] else [])
       ++ [GetRequest (pages_url credentials);
           ConsoleError ("0 or >1 Apps named " ++ appName ++ " found. 😓")],
     d, Exited 1%Z).
Proof.
  intros Hconfirmed Hfetch Hcount.
  apply (deleteApp_not_one W appName credentials confirmDeletion outputFormat d
           apps folders Hconfirmed Hfetch Hcount).
Qed.

Lemma C3_witness :
  deleteApp
    (sample_world true []
       [app_named "ghost" "a1"; app_named "orders App" "a2"; app_named "ghost" "a3"]
       (Returned tt) (Returned tt))
    "ghost" sample_session false FormatJson None
  = ([GetRequest "https://my-org.retool.com/api/pages?mobileAppsOnly=false";
      ConsoleError "0 or >1 Apps named ghost found. 😓"],
     None, Exited 1%Z).
Proof.
  apply (C3_delete_app_without_single_match_exits_1
           (sample_world true []
              [app_named "ghost" "a1"; app_named "orders App" "a2"; app_named "ghost" "a3"]
              (Returned tt) (Returned tt))
           "ghost" sample_session false FormatJson None
           (Some [app_named "ghost" "a1"; app_named "orders App" "a2"; app_named "ghost" "a3"])
           (Some [])).
  - discriminate.
  - reflexivity.
  - simpl. discriminate.
Defined.

(** C3, as stated, fails: with two apps named ghost the failure is the one
    reported when there is none, and its message does not name the count 2. *)
Lemma C3_two_matches_reported_like_none :
  deleteApp
    (sample_world true [] [app_named "ghost" "a1"; app_named "ghost" "a2"]
       (Returned tt) (Returned tt))
    "ghost" sample_session false FormatDefault None
  = ([GetRequest "https://my-org.retool.com/api/pages?mobileAppsOnly=false";
      ConsoleError "0 or >1 Apps named ghost found. 😓"],
     None, Exited 1%Z)
  /\ deleteApp
       (sample_world true [] [] (Returned tt) (Returned tt))
       "ghost" sample_session false FormatDefault None
     = deleteApp
         (sample_world true [] [app_named "ghost" "a1"; app_named "ghost" "a2"]
            (Returned tt) (Returned tt))
         "ghost" sample_session false FormatDefault None
  /\ occurs_in "2" "0 or >1 Apps named ghost found. 😓" = false.
Proof.
  repeat split; reflexivity.
Qed.

(* ===================================================================== *)
(** ** The scaffold command                                               *)
(* ===================================================================== *)

(** The run of the handler in delete mode, by the user's answer and the ends
    of the two awaited deletions. *)
Lemma handler_delete_run (W : World) (argv : Argv.t) (tableName : string)
    (credentials : Session) (d : Disk) :
  truthy (Argv.delete argv) = Some tableName ->
  getAndVerifyCredentialsWithRetoolDB_end W = Returned credentials ->
  handler W argv d =
  let asked := [Await GetAndVerifyCredentialsWithRetoolDB; Detached LogDAU;
                Prompt (scaffold_delete_question tableName)] in
  let workflowName := (tableName ++ " CRUD Workflow")%string in
  if answer_confirm W (scaffold_delete_question tableName) then
    match deleteTable_end W tableName with
    | Returned _ =>
        match deleteWorkflow_end W workflowName with
        | Returned _ =>
            after (asked ++ [Await (DeleteTable tableName false);
                             Await (DeleteWorkflow workflowName false)])
              (deleteApp W (tableName ++ " App") credentials false FormatDefault d)
        | Exited code =>
            (asked ++ [Await (DeleteTable tableName false);
                       Await (DeleteWorkflow workflowName false)], d, Exited code)
        | Thrown error =>
            (asked ++ [Await (DeleteTable tableName false);
                       Await (DeleteWorkflow workflowName false)], d, Thrown error)
        end
    | Exited code => (asked ++ [Await (DeleteTable tableName false)], d, Exited code)
    | Thrown error => (asked ++ [Await (DeleteTable tableName false)], d, Thrown error)
    end
  else (asked, d, Exited 0%Z).
Proof.
  intros Hdelete Hcredentials.
  unfold handler. unfold bind at 1. unfold await at 1. unfold bind at 1.
  unfold emit at 1, settle at 1. rewrite Hcredentials.
  unfold bind at 1. unfold emit at 1. rewrite Hdelete.
  unfold bind at 1. unfold confirm at 1. unfold bind at 1. unfold emit at 1, ret at 1.
  fold (scaffold_delete_question tableName).
  cbv zeta.
  destruct (answer_confirm W (scaffold_delete_question tableName)); [ | reflexivity].
  cbv beta iota delta [negb].
  unfold bind at 1. unfold ret at 1.
  unfold bind at 1. unfold await at 1. unfold bind at 1. unfold emit at 1, settle at 1.
  destruct (deleteTable_end W tableName) as [[] | code | error]; try reflexivity.
  unfold bind at 1. unfold await at 1. unfold bind at 1. unfold emit at 1, settle at 1.
  destruct (deleteWorkflow_end W (tableName ++ " CRUD Workflow")) as [[] | code | error];
    try reflexivity.
  unfold after, trace, disk_after, outcome.
  destruct (deleteApp W (tableName ++ " App") credentials false FormatDefault d)
    as [[t d'] r].
  reflexivity.
Qed.

(** C2, as amended: the scaffold command has no force flag, and a force
    value on the command line changes nothing: every delete invocation first
    asks for confirmation.  Once the user confirms and the table and the
    workflow are deleted, the pipeline has issued DeleteTable(name), then
    DeleteWorkflow(name CRUD Workflow), then DeleteApp(name App), each with
    its own confirmation switched off. *)
Theorem C2_delete_asks_then_issues_three_deletions
    (W : World) (argv : Argv.t) (tableName : string) (credentials : Session) (d : Disk) :
  truthy (Argv.delete argv) = Some tableName ->
  getAndVerifyCredentialsWithRetoolDB_end W = Returned credentials ->
  (exists rest,
     trace (handler W argv d)
     = [Await GetAndVerifyCredentialsWithRetoolDB; Detached LogDAU;
        Prompt (scaffold_delete_question tableName)] ++ rest)
  /\ (answer_confirm W (scaffold_delete_question tableName) = true ->
      deleteTable_end W tableName = Returned tt ->
      deleteWorkflow_end W (tableName ++ " CRUD Workflow") = Returned tt ->
      handler W argv d
      = after [Await GetAndVerifyCredentialsWithRetoolDB; Detached LogDAU;
               Prompt (scaffold_delete_question tableName);
               Await (DeleteTable tableName false);
               Await (DeleteWorkflow (tableName ++ " CRUD Workflow") false)]
          (deleteApp W (tableName ++ " App") credentials false FormatDefault d)).
Proof.
  intros Hdelete Hcredentials.
  rewrite (handler_delete_run W argv tableName credentials d Hdelete Hcredentials).
  cbv zeta. split.
  - destruct (answer_confirm W (scaffold_delete_question tableName)).
    + destruct (deleteTable_end W tableName) as [u | code | error];
        [destruct (deleteWorkflow_end W (tableName ++ " CRUD Workflow"))
           as [u' | code | error] | | ];
        unfold after, trace; simpl; eexists; reflexivity.
    + exists []. reflexivity.
  - intros -> -> ->. reflexivity.
Qed.

Lemma C2_witness :
  handler
    (sample_world true [] [app_named "orders App" "a1"] (Returned tt) (Returned tt))
    (scaffold_delete "orders" true) None
  = ([Await GetAndVerifyCredentialsWithRetoolDB; Detached LogDAU;
      Prompt "Are you sure you want to delete orders table, CRUD workflow and app?";
      Await (DeleteTable "orders" false);
      Await (DeleteWorkflow "orders CRUD Workflow" false);
      GetRequest "https://my-org.retool.com/api/pages?mobileAppsOnly=false";
      PostRequest "https://my-org.retool.com/api/folders/deletePage"
        [("pageId", Some "a1")];
      ConsoleLog "Deleted orders App app. 🗑️"],
     None, Returned tt).
Proof.
  apply (proj2 (C2_delete_asks_then_issues_three_deletions
                  (sample_world true [] [app_named "orders App" "a1"]
                     (Returned tt) (Returned tt))
                  (scaffold_delete "orders" true) "orders" sample_session None
                  eq_refl eq_refl));
    reflexivity.
Defined.

(** C2, as stated, fails: deleting orders with force set still asks for
    confirmation, and when the user declines nothing is deleted. *)
Lemma C2_force_does_not_skip_confirmation :
  handler
    (sample_world false [] [app_named "orders App" "a1"] (Returned tt) (Returned tt))
    (scaffold_delete "orders" true) None
  = ([Await GetAndVerifyCredentialsWithRetoolDB; Detached LogDAU;
      Prompt "Are you sure you want to delete orders table, CRUD workflow and app?"],
     None, Exited 0%Z).
Proof. reflexivity. Qed.

(** C8: in the delete pipeline, when the user declines the confirmation the
    run ends right after the prompt with exit code 0, having issued none of
    the three deletions; and when the user confirms but the deletion of the
    table fails, the run ends with that failure right after DeleteTable,
    having issued neither DeleteWorkflow nor DeleteApp. *)
Theorem C8_declined_or_failed_delete_stops_the_pipeline
    (W : World) (argv : Argv.t) (tableName : string) (credentials : Session) (d : Disk) :
  truthy (Argv.delete argv) = Some tableName ->
  getAndVerifyCredentialsWithRetoolDB_end W = Returned credentials ->
  (answer_confirm W (scaffold_delete_question tableName) = false ->
   handler W argv d
   = ([Await GetAndVerifyCredentialsWithRetoolDB; Detached LogDAU;
       Prompt (scaffold_delete_question tableName)],
      d, Exited 0%Z))
  /\ (answer_confirm W (scaffold_delete_question tableName) = true ->
      (forall u, deleteTable_end W tableName <> Returned u) ->
      handler W argv d
      = ([Await GetAndVerifyCredentialsWithRetoolDB; Detached LogDAU;
          Prompt (scaffold_delete_question tableName);
          Await (DeleteTable tableName false)],
         d, deleteTable_end W tableName)).
Proof.
  intros Hdelete Hcredentials.
  rewrite (handler_delete_run W argv tableName credentials d Hdelete Hcredentials).
  cbv zeta. split.
  - intros ->. reflexivity.
  - intros -> Hfail.
    destruct (deleteTable_end W tableName) as [u | code | error]; try reflexivity.
    now contradiction (Hfail u).
Qed.

Lemma C8_witness :
  handler
    (sample_world false [] [app_named "orders App" "a1"] (Returned tt) (Returned tt))
    (scaffold_delete "orders" false) None
  = ([Await GetAndVerifyCredentialsWithRetoolDB; Detached LogDAU;
      Prompt "Are you sure you want to delete orders table, CRUD workflow and app?"],
     None, Exited 0%Z)
  /\ handler
       (sample_world true [] [app_named "orders App" "a1"] (Exited 1%Z) (Returned tt))
       (scaffold_delete "orders" false) None
     = ([Await GetAndVerifyCredentialsWithRetoolDB; Detached LogDAU;
         Prompt "Are you sure you want to delete orders table, CRUD workflow and app?";
         Await (DeleteTable "orders" false)],
        None, Exited 1%Z).
Proof.
  split.
  - apply (proj1 (C8_declined_or_failed_delete_stops_the_pipeline
                    (sample_world false [] [app_named "orders App" "a1"]
                       (Returned tt) (Returned tt))
                    (scaffold_delete "orders" false) "orders" sample_session None
                    eq_refl eq_refl)).
    reflexivity.
  - apply (proj2 (C8_declined_or_failed_delete_stops_the_pipeline
                    (sample_world true [] [app_named "orders App" "a1"]
                       (Exited 1%Z) (Returned tt))
                    (scaffold_delete "orders" false) "orders" sample_session None
                    eq_refl eq_refl)).
    + reflexivity.
    + intros u. simpl. discriminate.
Defined.

Import ProcFacts.

(** Neither [createAppForTable] nor [deleteApp] creates a workflow, and with
    the no-workflow flag set no branch of the handler does. *)
Lemma handler_no_workflow (W : World) (argv : Argv.t) :
  Argv.no_workflow argv = true ->
  never_emits is_generate_workflow (handler W argv).
Proof.
  intros Hflag. unfold handler, confirm. rewrite Hflag. simpl negb. cbv zeta.
  apply never_emits_bind; [quiet | intros credentials].
  apply never_emits_bind; [quiet | intros _].
  destruct (truthy (Argv.delete argv)) as [tableName | ].
  - apply never_emits_bind; [quiet | intros confirmed].
    apply never_emits_bind; [quiet | intros _].
    apply never_emits_bind; [quiet | intros _].
    apply never_emits_bind; [quiet | intros _].
    apply deleteApp_no_workflow.
  - destruct (Argv.f argv) as [csvFileNames | ].
    + apply never_emits_for_of. intros csvFileName.
      apply never_emits_bind; [quiet | intros created].
      apply never_emits_bind; [quiet | intros _].
      apply never_emits_bind; [quiet | intros _].
      apply never_emits_bind; [apply createAppForTable_no_workflow | intros _].
      quiet.
    + apply never_emits_bind; [quiet | intros tableName].
      apply never_emits_bind; [quiet | intros colNames].
      apply never_emits_bind; [quiet | intros _].
      apply never_emits_bind; [quiet | intros _].
      apply never_emits_bind; [quiet | intros _].
      apply never_emits_bind; [quiet | intros _].
      apply createAppForTable_no_workflow.
Qed.

Lemma createAppForTable_never_workflow (W : World) (appName tableName columnName : string)
    (credentials : Session) (format : OutputFormat) (d : Disk) (t : string) :
  In (Await (GenerateCRUDWorkflow t))
     (trace (createAppForTable W appName tableName columnName credentials format d)) ->
  False.
Proof.
  intros Hin.
  pose proof (createAppForTable_no_workflow W appName tableName columnName
                credentials format d) as H.
  rewrite forallb_forall in H. specialize (H _ Hin). discriminate H.
Qed.

(** Case analysis on a run of the handler: split on the next thing the run
    depends on (the end of an awaited call, a command-line value, the run of
    [createAppForTable]). *)
Ltac run_case :=
  match goal with
  | |- context [match ?x with Returned _ => _ | Exited _ => _ | Thrown _ => _ end] =>
      lazymatch x with
      | context [match _ with _ => _ end] => fail
      | _ => destruct x as [? | ? | ?] eqn:?
      end
  | |- context [truthy ?x] => destruct (truthy x)
  | |- context [Argv.columns ?a] => destruct (Argv.columns a) as [[ | ? ?] | ]
  | |- context [Argv.no_workflow ?a] => destruct (Argv.no_workflow a)
  | |- context [createAppForTable ?W ?a ?b ?c ?cr ?f ?d] =>
      let H := fresh "Happ" in
      pose proof (createAppForTable_never_workflow W a b c cr f d) as H;
      destruct (createAppForTable W a b c cr f d) as [[? ?] ?]
  end.

Ltac run_cases :=
  repeat (unfold bind; cbn -[createAppForTable String.append]; run_case).

(** A run of the create pipeline in which the creation of the workflow
    fails sends no POST request, so [createAppForTable] was not entered. *)
Lemma handler_create_fail_fast (W : World) (argv : Argv.t) (d : Disk) (tableName : string) :
  truthy (Argv.delete argv) = None ->
  Argv.f argv = None ->
  In (Await (GenerateCRUDWorkflow tableName)) (trace (handler W argv d)) ->
  (forall u, generateCRUDWorkflow_end W tableName <> Returned u) ->
  forallb (fun e => negb (is_post e)) (trace (handler W argv d)) = true.
Proof.
  intros Hdelete Hf Hin Hfail. revert Hin.
  unfold handler. rewrite Hdelete, Hf.
  unfold await, emit, settle, ret.
  run_cases; cbn -[String.append]; try (intros _; reflexivity).
  all: intros Hin; exfalso.
  all: repeat match type of Hin with
              | _ \/ _ => destruct Hin as [Hin | Hin]
              end;
       try discriminate Hin.
  all: first [ now apply (Happ tableName)
             | injection Hin as E; subst; eapply Hfail; eassumption ].
Qed.

(** The run of the create pipeline for a table name and a non-empty column
    list given on the command line, when every step up to the creation of
    the app succeeds. *)
Lemma handler_create_run (W : World) (d : Disk) (credentials : Session)
    (tableName first : string) (rest : list string) :
  tableName <> "" ->
  getAndVerifyCredentialsWithRetoolDB_end W = Returned credentials ->
  createTable_end W tableName (first :: rest) = Returned tt ->
  generateCRUDWorkflow_end W tableName = Returned tt ->
  handler W (scaffold_create tableName (first :: rest) false) d
  = after [Await GetAndVerifyCredentialsWithRetoolDB; Detached LogDAU;
           Await (CreateTable tableName (first :: rest));
           Detached (InsertSampleData tableName);
           ConsoleLog LF;
           Await (GenerateCRUDWorkflow tableName);
           ConsoleLog LF]
      (createAppForTable W (tableName ++ " App") tableName first credentials
         FormatDefault d).
Proof.
  intros Hname Hcredentials Htable Hworkflow.
  unfold handler, scaffold_create, truthy.
  cbn [Argv.delete Argv.f Argv.name Argv.columns Argv.no_workflow negb].
  apply String.eqb_neq in Hname. rewrite Hname.
  unfold await, emit, settle, ret, bind.
  rewrite Hcredentials. cbn -[createAppForTable String.append].
  rewrite Htable. cbn -[createAppForTable String.append].
  rewrite Hworkflow. cbn -[createAppForTable String.append].
  unfold after, trace, disk_after, outcome.
  destruct (createAppForTable W (tableName ++ " App") tableName first credentials
              FormatDefault d) as [[t d'] r].
  reflexivity.
Qed.

(** C1: what the code does in the create pipeline.  For a table name and a
    non-empty column list given on the command line, with the workflow
    enabled and every step succeeding, the pipeline issues CreateTable, the
    detached InsertSampleData, the creation of the CRUD workflow, and then
    creates the app with the FIRST column of the list as its search column,
    whether or not that column is the identifier column.  The claim asks for
    the first column that is not the identifier; see the instance below. *)
Theorem C1_create_pipeline_searches_by_first_column
    (W : World) (d : Disk) (credentials : Session)
    (tableName first : string) (rest : list string) :
  tableName <> "" ->
  getAndVerifyCredentialsWithRetoolDB_end W = Returned credentials ->
  createTable_end W tableName (first :: rest) = Returned tt ->
  generateCRUDWorkflow_end W tableName = Returned tt ->
  handler W (scaffold_create tableName (first :: rest) false) d
  = after [Await GetAndVerifyCredentialsWithRetoolDB; Detached LogDAU;
           Await (CreateTable tableName (first :: rest));
           Detached (InsertSampleData tableName);
           ConsoleLog LF;
           Await (GenerateCRUDWorkflow tableName);
           ConsoleLog LF]
      (createAppForTable W (tableName ++ " App") tableName first credentials
         FormatDefault d).
Proof.
  intros Hname Hcredentials Htable Hworkflow.
  now apply handler_create_run.
Qed.

(** The scenario of the claim: table orders with columns id and name.  The
    app is created with search column id, where the specification's wording
    selects name. *)
Lemma C1_witness :
  handler (sample_world true [] [] (Returned tt) (Returned tt))
    (scaffold_create "orders" ["id"; "name"] false) None
  = ([Await GetAndVerifyCredentialsWithRetoolDB; Detached LogDAU;
      Await (CreateTable "orders" ["id"; "name"]);
      Detached (InsertSampleData "orders");
      ConsoleLog LF;
      Await (GenerateCRUDWorkflow "orders");
      ConsoleLog LF;
      PostRequest "https://my-org.retool.com/api/pages/autogeneratePage"
        [("appName", Some "orders App"); ("resourceName", Some "db-uuid-1");
         ("tableName", Some "orders"); ("columnName", Some "id")];
      ConsoleLog "Successfully created an App. 🎉";
      ConsoleLog "View in browser: https://my-org.retool.com/editor/page-uuid-1"],
     None, Returned tt)
  /\ first_non_identifier_column "id" ["id"; "name"] = "name".
Proof.
  split; [ | reflexivity].
  rewrite (C1_create_pipeline_searches_by_first_column
             (sample_world true [] [] (Returned tt) (Returned tt)) None sample_session
             "orders" "id" ["name"]); try reflexivity.
  discriminate.
Defined.

(** C7: in every run of the handler with the no-workflow flag set, the
    creation of the workflow is never invoked, whatever else succeeds or
    fails; and in every run of the create pipeline in which the creation of
    the workflow is invoked and fails (the awaited call does not return),
    the trace holds no POST request: [createAppForTable], whose first action
    is one, is never invoked. *)
Theorem C7_workflow_skipped_when_disabled_and_fail_fast
    (W : World) (argv : Argv.t) (d : Disk) :
  (Argv.no_workflow argv = true ->
   forallb (fun e => negb (is_generate_workflow e)) (trace (handler W argv d)) = true)
  /\ (truthy (Argv.delete argv) = None ->
      Argv.f argv = None ->
      forall tableName,
        In (Await (GenerateCRUDWorkflow tableName)) (trace (handler W argv d)) ->
        (forall u, generateCRUDWorkflow_end W tableName <> Returned u) ->
        forallb (fun e => negb (is_post e)) (trace (handler W argv d)) = true).
Proof.
  split.
  - intros Hflag. now apply handler_no_workflow.
  - intros Hdelete Hf tableName. now apply handler_create_fail_fast.
Qed.

Lemma C7_witness :
  forallb (fun e => negb (is_generate_workflow e))
    (trace (handler (sample_world true [] [] (Returned tt) (Thrown "RemoteError"))
              (scaffold_create "orders" ["name"] true) None)) = true
  /\ forallb (fun e => negb (is_post e))
       (trace (handler (sample_world true [] [] (Returned tt) (Exited 1%Z))
                 (scaffold_create "orders" ["name"] false) None)) = true.
Proof.
  split.
  - apply (proj1 (C7_workflow_skipped_when_disabled_and_fail_fast
                    (sample_world true [] [] (Returned tt) (Thrown "RemoteError"))
                    (scaffold_create "orders" ["name"] true) None)).
    reflexivity.
  - apply (proj2 (C7_workflow_skipped_when_disabled_and_fail_fast
                    (sample_world true [] [] (Returned tt) (Exited 1%Z))
                    (scaffold_create "orders" ["name"] false) None)
             eq_refl eq_refl "orders").
    + simpl. tauto.
    + intros u. simpl. discriminate.
Defined.

(* ===================================================================== *)
(** ** The access-token and host-name patterns                            *)
(* ===================================================================== *)

Lemma matches_star_class (p : ascii -> bool) (s : list ascii) :
  matches (Star (Class p)) s <-> forallb p s = true.
Proof.
  split.
  - intros H. remember (Star (Class p)) as r eqn:E.
    induction H; try discriminate E; [reflexivity | ].
    injection E as E. subst r.
    apply matches_class in H as (a & -> & Ha).
    simpl. rewrite Ha. now apply IHmatches2.
  - induction s as [ | a s IH]; simpl; intros H.
    + constructor.
    + apply andb_true_iff in H as [Ha H].
      apply (MStarApp (Class p) [a] s); [now constructor | now apply IH].
Qed.

Lemma matches_plus_class (p : ascii -> bool) (s : list ascii) :
  matches (Plus (Class p)) s <-> s <> [] /\ forallb p s = true.
Proof.
  unfold Plus. rewrite matches_class_then. split.
  - intros (a & t & -> & Ha & H). apply matches_star_class in H.
    split; [discriminate | ]. simpl. now rewrite Ha, H.
  - intros [N H]. destruct s as [ | a t]; [now contradiction N | ].
    simpl in H. apply andb_true_iff in H as [Ha H].
    exists a, t. repeat split; auto. now apply matches_star_class.
Qed.

Lemma matches_plus_class_then (p : ascii -> bool) (r : regex) (s : list ascii) :
  matches (Cat (Plus (Class p)) r) s <->
  exists seg t, s = seg ++ t /\ (seg <> [] /\ forallb p seg = true) /\ matches r t.
Proof.
  rewrite matches_cat. split.
  - intros (s1 & s2 & -> & H1 & H2). apply matches_plus_class in H1. eauto.
  - intros (seg & t & -> & Hseg & H). apply matches_plus_class in Hseg. eauto.
Qed.

(** A starred pattern matches the concatenations of matches of its body. *)
Lemma matches_star_parts (r : regex) (s : list ascii) :
  matches (Star r) s <-> exists parts, Forall (matches r) parts /\ s = concat parts.
Proof.
  split.
  - intros H. remember (Star r) as r' eqn:E.
    induction H; try discriminate E.
    + exists []. split; [constructor | reflexivity].
    + injection E as E. subst r0.
      destruct (IHmatches2 eq_refl) as (parts & Hparts & ->).
      exists (s1 :: parts). split; [now constructor | reflexivity].
  - intros (parts & Hparts & ->).
    induction Hparts as [ | part parts Hpart _ IH]; simpl; now constructor.
Qed.

(** The language of the access-token pattern. *)
Lemma jwtRegEx_shape (s : string) :
  Regex.test jwtRegEx s = true <-> three_segment_token s.
Proof.
  unfold Regex.test, three_segment_token, token_segment, jwtRegEx.
  rewrite matchb_matches. generalize (list_ascii_of_string s) as l. intros l. split.
  - intros H.
    apply matches_plus_class_then in H as (a & t & -> & Ha & H).
    apply matches_class_then in H as (x & t' & -> & X & H). apply one_true in X as ->.
    apply matches_plus_class_then in H as (b & t & -> & Hb & H).
    apply matches_class_then in H as (x & t' & -> & X & H). apply one_true in X as ->.
    apply matches_plus_class in H.
    exists a, b, t'. auto.
  - intros (a & b & c & -> & Ha & Hb & Hc).
    apply matches_plus_class_then. exists a. eexists. split; [reflexivity | split; [exact Ha | ]].
    apply matches_class_then. do 2 eexists. split; [reflexivity | split; [reflexivity | ]].
    apply matches_plus_class_then. exists b. eexists. split; [reflexivity | split; [exact Hb | ]].
    apply matches_class_then. do 2 eexists. split; [reflexivity | split; [reflexivity | ]].
    now apply matches_plus_class.
Qed.

Lemma alnum_is_alnum_or_dash (c : ascii) : alnum c = true -> alnum_or_dash c = true.
Proof. intros H. unfold alnum_or_dash, either. now rewrite H. Qed.

Lemma last_snoc (first z : ascii) (mid : list ascii) :
  last (first :: mid ++ [z]) first = z.
Proof.
  change (first :: mid ++ [z]) with ((first :: mid) ++ [z]). apply last_last.
Qed.

(** One label of the host-name pattern. *)
Lemma hostname_label_dns_label (l : list ascii) :
  matches hostname_label l <-> dns_label l.
Proof.
  unfold hostname_label, dns_label. split.
  - intros H. inversion H as [ | | | ? ? ? HL | ? ? ? HR | | ]; subst.
    + apply matches_class in HL as (a & -> & Ha).
      exists a. simpl. rewrite (alnum_is_alnum_or_dash a Ha). auto.
    + apply matches_class_then in HR as (a & t & -> & Ha & HR).
      apply matches_cat in HR as (mid & t' & -> & Hmid & Hz).
      apply matches_star_class in Hmid.
      apply matches_class in Hz as (z & -> & Hz).
      exists a. rewrite last_snoc. repeat split; auto.
      simpl. rewrite forallb_app, Hmid, (alnum_is_alnum_or_dash a Ha). simpl.
      now rewrite (alnum_is_alnum_or_dash z Hz).
  - intros (first & Hhd & Hfirst & Hlast & Hall).
    destruct l as [ | a tl]; [discriminate Hhd | ].
    simpl in Hhd. injection Hhd as ->.
    destruct tl as [ | b tl'].
    + apply MAltL. now constructor.
    + destruct (exists_last (l := b :: tl')) as (mid & z & E); [discriminate | ].
      rewrite E in *. rewrite last_snoc in Hlast.
      simpl in Hall. apply andb_true_iff in Hall as [_ Hall].
      rewrite forallb_app in Hall. apply andb_true_iff in Hall as [Hmid _].
      apply MAltR. apply matches_class_then. exists first, (mid ++ [z]).
      repeat split; auto.
      apply matches_cat. exists mid, [z]. repeat split.
      * now apply matches_star_class.
      * now constructor.
Qed.

Lemma dotted_parts (parts : list (list ascii)) :
  Forall (matches (Cat hostname_label (Class (one "."%char)))) parts <->
  exists labels, Forall dns_label labels /\ parts = map (fun l => l ++ ["."%char]) labels.
Proof.
  split.
  - induction 1 as [ | part parts Hpart _ (labels & Hlabels & ->)].
    + exists []. split; [constructor | reflexivity].
    + apply matches_cat in Hpart as (l & dot & -> & Hl & Hdot).
      apply matches_class in Hdot as (x & -> & X). apply one_true in X as ->.
      apply hostname_label_dns_label in Hl.
      exists (l :: labels). split; [now constructor | reflexivity].
  - intros (labels & Hlabels & ->).
    induction Hlabels as [ | l labels Hl _ IH]; simpl; constructor; auto.
    apply matches_cat. exists l, ["."%char]. repeat split.
    + now apply hostname_label_dns_label.
    + constructor. reflexivity.
Qed.

(** The language of the host-name pattern. *)
Lemma hostnameRegEx_shape (s : string) :
  Regex.test hostnameRegEx s = true <-> dotted_labels s.
Proof.
  unfold Regex.test, dotted_labels, hostnameRegEx.
  rewrite matchb_matches. generalize (list_ascii_of_string s) as l. intros l.
  rewrite matches_cat. split.
  - intros (s1 & final & -> & Hstar & Hfinal).
    apply matches_star_parts in Hstar as (parts & Hparts & ->).
    apply dotted_parts in Hparts as (labels & Hlabels & ->).
    apply hostname_label_dns_label in Hfinal.
    exists labels, final. auto.
  - intros (labels & final & Hlabels & Hfinal & ->).
    exists (concat (map (fun l => l ++ ["."%char]) labels)), final.
    repeat split.
    + apply matches_star_parts. eexists. split; [ | reflexivity].
      apply dotted_parts. eauto.
    + now apply hostname_label_dns_label.
Qed.

(** Each pattern test decides the well-formedness of its field. *)
Lemma malformed_iff (credentials : Credentials) (fld : field) :
  malformed credentials fld = true <-> ~ well_formed credentials fld.
Proof.
  destruct fld; simpl; rewrite negb_true_iff.
  - rewrite <- uuidRegEx_canonical. symmetry. apply not_true_iff_false.
  - rewrite <- jwtRegEx_shape. symmetry. apply not_true_iff_false.
  - rewrite <- hostnameRegEx_shape. symmetry. apply not_true_iff_false.
Qed.

Lemma well_formed_iff (credentials : Credentials) (fld : field) :
  malformed credentials fld = false <-> well_formed credentials fld.
Proof.
  destruct fld; simpl; rewrite negb_false_iff.
  - apply uuidRegEx_canonical.
  - apply jwtRegEx_shape.
  - apply hostnameRegEx_shape.
Qed.

(** C6: a record with at least one malformed base field (a session token
    that is not a lowercase canonical version-4 UUID, an access token that
    is not three non-empty segments of word characters and dashes, or a
    domain that is not a dotted list of labels) makes [validateCookies]
    report the error of the first malformed field in the order session
    token, access token, domain (the fields before it are well formed, the
    fields after it are not looked at): one message, naming that field and
    no other, then exit code 1, with the credentials file untouched. *)
Theorem C6_validate_reports_first_malformed (credentials : Credentials) (d : Disk) :
  (exists some, ~ well_formed credentials some) ->
  exists earlier fld later,
    validation_order = earlier ++ fld :: later
    /\ (forall e, In e earlier -> well_formed credentials e)
    /\ ~ well_formed credentials fld
    /\ validateCookies credentials d
       = ([ConsoleLog (validation_message fld)], d, Exited 1%Z)
    /\ (forall other, validation_message other = validation_message fld -> other = fld).
Proof.
  intros (some & Hsome). apply malformed_iff in Hsome.
  assert (Hdistinct : forall fld other,
             validation_message other = validation_message fld -> other = fld).
  { intros fld other. destruct other, fld; simpl; intros E; try reflexivity; discriminate E. }
  rewrite validateCookies_run. unfold first_malformed, validation_order. cbn [find].
  destruct (malformed credentials SessionToken) eqn:H1.
  { exists [], SessionToken, [AccessToken; Domain].
    split; [reflexivity | split; [intros e [] | ]].
    split; [now apply malformed_iff | split; [reflexivity | apply Hdistinct]]. }
  destruct (malformed credentials AccessToken) eqn:H2.
  { exists [SessionToken], AccessToken, [Domain].
    split; [reflexivity | split; [intros e [<- | []]; now apply well_formed_iff | ]].
    split; [now apply malformed_iff | split; [reflexivity | apply Hdistinct]]. }
  destruct (malformed credentials Domain) eqn:H3.
  { exists [SessionToken; AccessToken], Domain, [].
    split; [reflexivity
           | split; [intros e [<- | [<- | []]]; now apply well_formed_iff | ]].
    split; [now apply malformed_iff | split; [reflexivity | apply Hdistinct]]. }
  destruct some; congruence.
Qed.

(** A record whose session token and access token are well formed and whose
    domain is not: the domain is the field reported. *)
Lemma C6_witness :
  exists fld,
    validateCookies only_domain_malformed None
    = ([ConsoleLog (validation_message fld)], None, Exited 1%Z)
    /\ ~ well_formed only_domain_malformed fld
    /\ fld = Domain.
Proof.
  destruct (C6_validate_reports_first_malformed only_domain_malformed None)
    as (earlier & fld & later & _ & _ & Hbad & Hrun & _).
  - exists Domain. intros H. apply hostnameRegEx_shape in H. discriminate H.
  - exists fld. split; [exact Hrun | split; [exact Hbad | ]].
    destruct fld; [discriminate Hrun | discriminate Hrun | reflexivity].
Defined.

(** X9: [validateCookies] takes as access token exactly the strings made of
    three non-empty segments of word characters (letters, digits,
    underscore) and dashes, separated by dots. *)
Theorem X9_access_token_pattern_is_three_segments (s : string) :
  Regex.test jwtRegEx s = true <-> three_segment_token s.
Proof. apply jwtRegEx_shape. Qed.

(** X10: [validateCookies] takes as domain exactly the strings made of one
    or more labels separated by dots, each label a non-empty run of letters,
    digits and hyphens that neither starts nor ends with a hyphen. *)
Theorem X10_domain_pattern_is_dotted_labels (s : string) :
  Regex.test hostnameRegEx s = true <-> dotted_labels s.
Proof. apply hostnameRegEx_shape. Qed.

(** X8: [validateCookies] returns (rather than exiting) exactly for the
    records whose session token is a lowercase canonical version-4 UUID,
    whose access token has three segments and whose domain is a dotted list
    of labels; it then prints nothing and leaves the credentials file as it
    was. *)
Theorem X8_validate_returns_iff_all_fields_well_formed
    (credentials : Credentials) (d : Disk) :
  validateCookies credentials d = ([], d, Returned tt) <->
  uuid_v4_canonical lower_hex variant_nibble (xsrf credentials)
  /\ three_segment_token (accessToken credentials)
  /\ dotted_labels (domain credentials).
Proof.
  rewrite <- uuidRegEx_canonical, <- jwtRegEx_shape, <- hostnameRegEx_shape.
  rewrite validateCookies_run.
  unfold first_malformed, validation_order, malformed. cbn [find].
  destruct (Regex.test uuidRegEx (xsrf credentials)); simpl;
    [ | split; [discriminate | intros (H & _); discriminate H]].
  destruct (Regex.test jwtRegEx (accessToken credentials)); simpl;
    [ | split; [discriminate | intros (_ & H & _); discriminate H]].
  destruct (Regex.test hostnameRegEx (domain credentials)); simpl;
    [ | split; [discriminate | intros (_ & _ & H); discriminate H]].
  split; auto.
Qed.

(* ===================================================================== *)
(** ** The credentials file                                               *)
(* ===================================================================== *)

(** X3: in every run of [fetchDBCredentials], failures included, the
    credentials file is either left exactly as it was or replaced by a
    record with the same base and profile fields and a resolved
    [retoolDBUuid]. *)
Theorem X3_resolver_keeps_base_fields (W : World) (d : Disk) :
  disk_after (fetchDBCredentials W d) = d
  \/ exists credentials merged uuid flag,
       d = Some credentials
       /\ disk_after (fetchDBCredentials W d) = Some merged
       /\ outcome (fetchDBCredentials W d) = Returned tt
       /\ domain merged = domain credentials
       /\ xsrf merged = xsrf credentials
       /\ accessToken merged = accessToken credentials
       /\ firstName merged = firstName credentials
       /\ lastName merged = lastName credentials
       /\ email merged = email credentials
       /\ retoolDBUuid merged = Some uuid
       /\ hasConnectionString merged = Some flag.
Proof.
  destruct d as [credentials | ]; [ | left; reflexivity].
  unfold fetchDBCredentials, getCredentials, getRequest, persistCredentials,
    bind, emit, settle, ret, throw, disk_after, outcome.
  cbn -[String.append filter].
  destruct (resources_reply W _) as [[resources | ] | code | error];
    cbn -[String.append filter]; try (left; reflexivity).
  destruct (filter _ resources) as [ | first others];
    cbn -[String.append]; [left; reflexivity | ].
  destruct (grid_reply W _) as [grid | code | error];
    cbn -[String.append]; try (left; reflexivity).
  destruct (file_writable W); cbn -[String.append]; [ | left; reflexivity].
  right. do 4 eexists. repeat split; reflexivity.
Qed.

(** X4: when the reply to the resources request carries no resource list,
    [fetchDBCredentials] does not report the database as not found: indexing
    the absent list throws, after the one request and without any write. *)
Theorem X4_resolver_throws_without_resource_list (W : World) (credentials : Credentials) :
  resources_reply W (resources_url credentials) = Returned None ->
  fetchDBCredentials W (Some credentials)
  = ([GetRequest (resources_url credentials)], Some credentials, Thrown "TypeError").
Proof.
  intros Hres.
  unfold fetchDBCredentials, getCredentials, getRequest, bind at 1.
  unfold bind at 1. unfold bind at 1. unfold emit at 1, settle at 1.
  fold (resources_url credentials). rewrite Hres. reflexivity.
Qed.

Lemma X4_witness :
  fetchDBCredentials (sample_world_with login_answers (mkPagesData None None)
                        (None, "{}") true None)
    (Some sample_credentials)
  = ([GetRequest "https://my-org.retool.com/api/resources"],
     Some sample_credentials, Thrown "TypeError").
Proof.
  apply (X4_resolver_throws_without_resource_list
           (sample_world_with login_answers (mkPagesData None None) (None, "{}") true None)
           sample_credentials).
  reflexivity.
Defined.

(** X5: [fetchDBCredentials] has no early return for a record that already
    carries the derived fields: run a second time in the same world it sends
    both requests again and writes the same record again. *)
Theorem X5_resolver_refetches_and_is_idempotent
    (W : World) (credentials : Credentials) (resources others : list Resource.t)
    (first : Resource.t) (grid : GridInfo.t) :
  resources_reply W (resources_url credentials) = Returned (Some resources) ->
  filter is_retool_db resources = first :: others ->
  grid_reply W (grid_url credentials (Resource.name first)) = Returned grid ->
  file_writable W = true ->
  bind (fetchDBCredentials W) (fun _ => fetchDBCredentials W) (Some credentials)
  = ([GetRequest (resources_url credentials);
      GetRequest (grid_url credentials (Resource.name first));
      WriteCredentials (merged_record credentials first grid);
      GetRequest (resources_url credentials);
      GetRequest (grid_url credentials (Resource.name first));
      WriteCredentials (merged_record credentials first grid)],
     Some (merged_record credentials first grid), Returned tt).
Proof.
  intros Hres Hfirst Hgrid Hw. unfold bind.
  rewrite (fetchDBCredentials_found W credentials resources others first grid
             Hres Hfirst Hgrid Hw).
  rewrite (fetchDBCredentials_found W (merged_record credentials first grid)
             resources others first grid Hres Hfirst Hgrid Hw).
  reflexivity.
Qed.

Lemma X5_witness :
  disk_after
    (bind (fetchDBCredentials
             (sample_world true [Resource.mk "retool_db" "db-uuid-1"] []
                (Returned tt) (Returned tt)))
       (fun _ => fetchDBCredentials
                   (sample_world true [Resource.mk "retool_db" "db-uuid-1"] []
                      (Returned tt) (Returned tt)))
       (Some sample_credentials))
  = disk_after
      (fetchDBCredentials
         (sample_world true [Resource.mk "retool_db" "db-uuid-1"] []
            (Returned tt) (Returned tt))
         (Some sample_credentials)).
Proof.
  rewrite (X5_resolver_refetches_and_is_idempotent
             (sample_world true [Resource.mk "retool_db" "db-uuid-1"] []
                (Returned tt) (Returned tt))
             sample_credentials [Resource.mk "retool_db" "db-uuid-1"] []
             (Resource.mk "retool_db" "db-uuid-1") sample_grid
             eq_refl eq_refl eq_refl eq_refl).
  reflexivity.
Defined.

(* ===================================================================== *)
(** ** Logging in by pasting cookies                                      *)
(* ===================================================================== *)

(** The run of [askForCookies], by the validity of the answers and the
    state of the file. *)
Lemma askForCookies_run (W : World) (d : Disk) :
  askForCookies W d =
  let answer := login_record (answer_input W "domain") (answer_input W "xsrf")
                  (answer_input W "accessToken") in
  let asked := [Input "domain"; Input "xsrf"; Input "accessToken"] in
  match first_malformed answer with
  | Some fld => (asked ++ [ConsoleLog (validation_message fld)], d, Exited 1%Z)
  | None =>
      if file_writable W
      then (asked ++ [WriteCredentials answer;
                      ConsoleLog "Successfully saved credentials."],
            Some answer, Returned tt)
      else (asked ++ [WriteCredentials answer;
                      ConsoleError "Error saving credentials to disk, exiting: "],
            d, Exited 1%Z)
  end.
Proof.
  unfold askForCookies, input, bind, emit, ret.
  cbn -[validateCookies persistCredentials first_malformed].
  fold (login_record (answer_input W "domain") (answer_input W "xsrf")
          (answer_input W "accessToken")).
  rewrite validateCookies_run.
  destruct (first_malformed _) as [fld | ]; [reflexivity | ].
  unfold persistCredentials. destruct (file_writable W); reflexivity.
Qed.

(** X6: [askForCookies] validates before it persists: in every run, a
    record handed to the credentials file has a session token, an access
    token and a domain that all match their patterns, and it is the record
    of the three answers, without derived or profile fields. *)
Theorem X6_login_persists_only_validated_answers
    (W : World) (d : Disk) (written : Credentials) :
  In (WriteCredentials written) (trace (askForCookies W d)) ->
  Regex.test uuidRegEx (xsrf written) = true
  /\ Regex.test jwtRegEx (accessToken written) = true
  /\ Regex.test hostnameRegEx (domain written) = true
  /\ written = login_record (answer_input W "domain") (answer_input W "xsrf")
                 (answer_input W "accessToken").
Proof.
  rewrite askForCookies_run. cbv zeta.
  set (answer := login_record _ _ _).
  unfold first_malformed, validation_order, malformed. cbn [find].
  destruct (Regex.test uuidRegEx (xsrf answer)) eqn:Hx;
    [destruct (Regex.test jwtRegEx (accessToken answer)) eqn:Ha;
       [destruct (Regex.test hostnameRegEx (domain answer)) eqn:Hd;
          [destruct (file_writable W) | ] | ] | ];
    unfold trace; cbn [negb fst snd app In]; intros Hin;
    repeat match type of Hin with
           | _ \/ _ => destruct Hin as [Hin | Hin]
           end;
    try discriminate Hin; try contradiction;
    injection Hin as Hin; subst written; auto.
Qed.

Lemma X6_witness :
  Regex.test hostnameRegEx (domain (login_record "my-org.retool.com"
                                      "26725f72-8129-47f7-835a-cba0e5dbcfe6"
                                      "header.payload.signature")) = true.
Proof.
  apply (X6_login_persists_only_validated_answers
           (sample_world_with login_answers (mkPagesData None None) (None, "{}") true None)
           None
           (login_record "my-org.retool.com" "26725f72-8129-47f7-835a-cba0e5dbcfe6"
              "header.payload.signature")).
  vm_compute. tauto.
Defined.

(** X7: a login whose three answers match their patterns replaces the whole
    credentials file by the record of the answers: whatever the file held,
    derived fields resolved earlier included, is gone. *)
Theorem X7_login_overwrites_the_whole_record (W : World) (d : Disk) :
  Regex.test uuidRegEx (answer_input W "xsrf") = true ->
  Regex.test jwtRegEx (answer_input W "accessToken") = true ->
  Regex.test hostnameRegEx (answer_input W "domain") = true ->
  file_writable W = true ->
  askForCookies W d
  = ([Input "domain"; Input "xsrf"; Input "accessToken";
      WriteCredentials (login_record (answer_input W "domain") (answer_input W "xsrf")
                          (answer_input W "accessToken"));
      ConsoleLog "Successfully saved credentials."],
     Some (login_record (answer_input W "domain") (answer_input W "xsrf")
             (answer_input W "accessToken")),
     Returned tt).
Proof.
  intros Hx Ha Hd Hw. rewrite askForCookies_run. cbv zeta.
  unfold first_malformed, validation_order, malformed, login_record. cbn [find xsrf accessToken domain].
  rewrite Hx, Ha, Hd, Hw. reflexivity.
Qed.

Lemma X7_witness :
  disk_after
    (askForCookies
       (sample_world_with login_answers (mkPagesData None None) (None, "{}") true None)
       (Some (stored sample_session)))
  = Some (login_record "my-org.retool.com" "26725f72-8129-47f7-835a-cba0e5dbcfe6"
            "header.payload.signature").
Proof.
  rewrite (X7_login_overwrites_the_whole_record
             (sample_world_with login_answers (mkPagesData None None) (None, "{}") true None)
             (Some (stored sample_session)) eq_refl eq_refl eq_refl eq_refl).
  reflexivity.
Defined.

(* ===================================================================== *)
(** ** Listing, deleting and creating apps                                *)
(* ===================================================================== *)

(** The run of [getAppsAndFolders] on a reply that lists apps and folders. *)
Lemma getAppsAndFolders_run (W : World) (credentials : Session) (d : Disk)
    (apps : list App.t) (fs : list Folder.t) :
  pages_reply W (pages_url credentials)
    = Returned {| pages := Some apps; folders := Some fs |} ->
  getAppsAndFolders W credentials d
  = ([GetRequest (pages_url credentials)], d,
     Returned (Some (filter (fun app =>
                               differs_from (option_map Folder.id (find is_archive fs))
                                 (App.folderId app)) apps),
               Some fs)).
Proof.
  intros Hreply.
  unfold getAppsAndFolders, getRequest, bind, emit, settle, ret.
  fold (pages_url credentials). rewrite Hreply. reflexivity.
Qed.

(** X11: [getAppsAndFolders] returns, in the order of the listing, exactly
    the apps that are not in the archive folder (the first system folder
    named archive), and all of them when there is no such folder; the
    folders come back unfiltered, the archive folder included. *)
Theorem X11_listing_leaves_out_archived_apps
    (W : World) (credentials : Session) (d : Disk)
    (apps : list App.t) (fs : list Folder.t) :
  pages_reply W (pages_url credentials)
    = Returned {| pages := Some apps; folders := Some fs |} ->
  exists kept,
    getAppsAndFolders W credentials d
    = ([GetRequest (pages_url credentials)], d, Returned (Some kept, Some fs))
    /\ (forall app,
          In app kept <->
          In app apps
          /\ (forall trash, find is_archive fs = Some trash ->
                            App.folderId app <> Folder.id trash))
    /\ (find is_archive fs = None -> kept = apps).
Proof.
  intros Hreply. eexists.
  split; [apply (getAppsAndFolders_run W credentials d apps fs Hreply) | ]. split.
  - intros app. rewrite filter_In.
    destruct (find is_archive fs) as [trash | ]; simpl.
    + rewrite negb_true_iff, Z.eqb_neq. split.
      * intros [Hin Hne]. split; [exact Hin | ]. intros t E. now injection E as <-.
      * intros [Hin Hne]. split; [exact Hin | ]. now apply Hne.
    + split; [intros [Hin _]; split; [exact Hin | discriminate] | intros [Hin _]; auto].
  - intros ->. clear Hreply. induction apps as [ | app rest IH]; [reflexivity | ].
    simpl in *. now rewrite IH.
Qed.

Lemma X11_witness :
  outcome
    (getAppsAndFolders
       (sample_world_with login_answers
          {| pages := Some [app_named "ghost" "a1"; archived_app "ghost" "a2";
                            app_named "orders App" "a3"];
             folders := Some [archive_folder] |}
          (None, "{}") true None)
       sample_session None)
  = Returned (Some [app_named "ghost" "a1"; app_named "orders App" "a3"],
              Some [archive_folder]).
Proof.
  destruct (X11_listing_leaves_out_archived_apps
              (sample_world_with login_answers
                 {| pages := Some [app_named "ghost" "a1"; archived_app "ghost" "a2";
                                   app_named "orders App" "a3"];
                    folders := Some [archive_folder] |}
                 (None, "{}") true None)
              sample_session None
              [app_named "ghost" "a1"; archived_app "ghost" "a2"; app_named "orders App" "a3"]
              [archive_folder] eq_refl) as (kept & Hrun & _).
  reflexivity.
Defined.

(** The run of [deleteApp], without confirmation, when the listing holds
    exactly one app of the given name. *)
Lemma deleteApp_one (W : World) (appName : string) (credentials : Session)
    (outputFormat : OutputFormat) (d : Disk)
    (apps : option (list App.t)) (fs : option (list Folder.t))
    (app : App.t) (json : string) :
  getAppsAndFolders W credentials d
    = ([GetRequest (pages_url credentials)], d, Returned (apps, fs)) ->
  named appName apps = [app] ->
  deletePage_reply W [("pageId", Some (App.id app))] = Returned json ->
  deleteApp W appName credentials false outputFormat d
  = ([GetRequest (pages_url credentials);
      PostRequest (delete_page_url credentials) [("pageId", Some (App.id app))];
      ConsoleLog (match outputFormat with
                  | FormatJson => json
                  | FormatDefault => deleted_message appName
                  end)],
     d, Returned tt).
Proof.
  intros Hfetch Hone Hreply.
  unfold deleteApp. unfold bind at 1. unfold ret at 1.
  unfold bind at 1. rewrite Hfetch. cbv beta iota delta [fst snd].
  destruct apps as [l | ]; [ | discriminate Hone].
  unfold named in Hone. unfold option_map. rewrite Hone.
  cbv beta iota delta [length_not_1 List.length Nat.eqb negb].
  unfold postRequest, bind, emit, settle.
  fold (delete_page_url credentials). rewrite Hreply.
  destruct outputFormat; reflexivity.
Qed.

(** X12: when exactly one listed app outside the archive carries the given
    name, [deleteApp] posts one delete request, for the id of that app, and
    then reports the deletion (or prints the reply, in JSON format); other
    apps of the listing play no part. *)
Theorem X12_delete_app_deletes_the_single_match
    (W : World) (appName : string) (credentials : Session)
    (outputFormat : OutputFormat) (d : Disk)
    (apps : option (list App.t)) (fs : option (list Folder.t))
    (app : App.t) (json : string) :
  getAppsAndFolders W credentials d
    = ([GetRequest (pages_url credentials)], d, Returned (apps, fs)) ->
  named appName apps = [app] ->
  deletePage_reply W [("pageId", Some (App.id app))] = Returned json ->
  deleteApp W appName credentials false outputFormat d
  = ([GetRequest (pages_url credentials);
      PostRequest (delete_page_url credentials) [("pageId", Some (App.id app))];
      ConsoleLog (match outputFormat with
                  | FormatJson => json
                  | FormatDefault => deleted_message appName
                  end)],
     d, Returned tt).
Proof.
  intros Hfetch Hone Hreply. now apply (deleteApp_one W appName credentials outputFormat d apps fs).
Qed.

Lemma X12_witness :
  deleteApp
    (sample_world_with login_answers
       {| pages := Some [app_named "ghost" "a1"; archived_app "ghost" "a2";
                         app_named "orders App" "a3"];
          folders := Some [archive_folder] |}
       (None, "{}") true None)
    "ghost" sample_session false FormatDefault None
  = ([GetRequest "https://my-org.retool.com/api/pages?mobileAppsOnly=false";
      PostRequest "https://my-org.retool.com/api/folders/deletePage"
        [("pageId", Some "a1")];
      ConsoleLog "Deleted ghost app. 🗑️"],
     None, Returned tt).
Proof.
  apply (X12_delete_app_deletes_the_single_match
           (sample_world_with login_answers
              {| pages := Some [app_named "ghost" "a1"; archived_app "ghost" "a2";
                                app_named "orders App" "a3"];
                 folders := Some [archive_folder] |}
              (None, "{}") true None)
           "ghost" sample_session FormatDefault None
           (Some [app_named "ghost" "a1"; app_named "orders App" "a3"])
           (Some [archive_folder]) (app_named "ghost" "a1") "{}");
    reflexivity.
Defined.

(** X14: an app that sits in the archive folder cannot be deleted by name:
    when every listed app of that name is archived, [deleteApp] finds no
    match, reports the failure and exits with code 1 without a delete
    request. *)
Theorem X14_archived_app_is_not_deleted
    (W : World) (appName : string) (credentials : Session)
    (outputFormat : OutputFormat) (d : Disk)
    (apps : list App.t) (fs : list Folder.t) (trash : Folder.t) :
  pages_reply W (pages_url credentials)
    = Returned {| pages := Some apps; folders := Some fs |} ->
  find is_archive fs = Some trash ->
  (forall app, In app apps -> App.name app = appName ->
               App.folderId app = Folder.id trash) ->
  deleteApp W appName credentials false outputFormat d
  = ([GetRequest (pages_url credentials); ConsoleError (not_one_app_message appName)],
     d, Exited 1%Z).
Proof.
  intros Hreply Htrash Harchived.
  pose proof (getAppsAndFolders_run W credentials d apps fs Hreply) as Hrun.
  apply (deleteApp_not_one W appName credentials false outputFormat d _ _
           (fun H => False_ind _ (Bool.diff_false_true H)) Hrun).
  rewrite Htrash. simpl.
  assert (E : forall l, (forall app, In app l -> App.name app = appName ->
                                     App.folderId app = Folder.id trash) ->
                        filter (fun app => String.eqb (App.name app) appName)
                          (filter (fun app => negb (Z.eqb (App.folderId app) (Folder.id trash))) l)
                        = []).
  { induction l as [ | app rest IH]; intros Hl; simpl; [reflexivity | ].
    destruct (Z.eqb_spec (App.folderId app) (Folder.id trash)) as [Hin | Hout]; simpl.
    - apply IH. intros a Ha. apply Hl. now right.
    - destruct (String.eqb_spec (App.name app) appName) as [Hname | _].
      + exfalso. apply Hout. apply Hl; [now left | exact Hname].
      + apply IH. intros a Ha. apply Hl. now right. }
  rewrite (E apps Harchived). simpl. discriminate.
Qed.

Lemma X14_witness :
  deleteApp
    (sample_world_with login_answers
       {| pages := Some [archived_app "ghost" "a2"; app_named "orders App" "a3"];
          folders := Some [archive_folder] |}
       (None, "{}") true None)
    "ghost" sample_session false FormatDefault None
  = ([GetRequest "https://my-org.retool.com/api/pages?mobileAppsOnly=false";
      ConsoleError "0 or >1 Apps named ghost found. 😓"],
     None, Exited 1%Z).
Proof.
  apply (X14_archived_app_is_not_deleted
           (sample_world_with login_answers
              {| pages := Some [archived_app "ghost" "a2"; app_named "orders App" "a3"];
                 folders := Some [archive_folder] |}
              (None, "{}") true None)
           "ghost" sample_session FormatDefault None
           [archived_app "ghost" "a2"; app_named "orders App" "a3"]
           [archive_folder] archive_folder eq_refl eq_refl).
  intros app [<- | [<- | []]]; simpl; [reflexivity | discriminate].
Defined.

(** Without confirmation, [deleteApp] only sends requests and writes to the
    console; so does [createAppForTable]. *)
Ltac quiet_io H :=
  repeat lazymatch goal with
    | |- never_emits _ (bind _ _) => apply never_emits_bind; [ | intros ? ]
    | |- never_emits _ (ret _) => apply never_emits_ret
    | |- never_emits _ (exit _) => apply never_emits_exit
    | |- never_emits _ (throw _) => apply never_emits_throw
    | |- never_emits _ (settle _) => apply never_emits_settle
    | |- never_emits _ (emit _) => apply never_emits_emit; apply H; reflexivity
    | |- never_emits _ (getRequest _ _) => unfold getRequest
    | |- never_emits _ (postRequest _ _ _) => unfold postRequest
    | |- never_emits _ (match ?x with _ => _ end) => destruct x
    end.

Lemma deleteApp_unconfirmed_io (bad : event -> bool) (W : World) (appName : string)
    (credentials : Session) (outputFormat : OutputFormat) :
  (forall e, is_plain_io e = true -> bad e = false) ->
  never_emits bad (deleteApp W appName credentials false outputFormat).
Proof.
  intros H. unfold deleteApp, getAppsAndFolders. cbv zeta. quiet_io H.
Qed.

Lemma createAppForTable_io (bad : event -> bool) (W : World)
    (appName tableName columnName : string) (credentials : Session)
    (format : OutputFormat) :
  (forall e, is_plain_io e = true -> bad e = false) ->
  never_emits bad (createAppForTable W appName tableName columnName credentials format).
Proof.
  intros H. unfold createAppForTable. quiet_io H.
Qed.

(** X13: [deleteApp] asks for confirmation exactly when told to.  With
    [confirmDeletion] unset no run prompts; with it set every run starts
    with the prompt, and when the user declines the run is that prompt and
    exit code 0: no request is sent. *)
Theorem X13_delete_app_confirmation (W : World) (appName : string)
    (credentials : Session) (outputFormat : OutputFormat) (d : Disk) :
  forallb (fun e => negb (is_prompt e))
    (trace (deleteApp W appName credentials false outputFormat d)) = true
  /\ (exists rest,
        trace (deleteApp W appName credentials true outputFormat d)
        = Prompt (delete_app_question appName) :: rest)
  /\ (answer_confirm W (delete_app_question appName) = false ->
      deleteApp W appName credentials true outputFormat d
      = ([Prompt (delete_app_question appName)], d, Exited 0%Z)).
Proof.
  split; [ | split].
  - apply deleteApp_unconfirmed_io. intros e; destruct e; simpl; congruence.
  - unfold deleteApp. unfold bind at 1. unfold bind at 1. unfold confirm at 1.
    unfold bind at 1. unfold emit at 1, ret at 1.
    fold (delete_app_question appName).
    destruct (answer_confirm W (delete_app_question appName)); cbv beta iota delta [negb].
    + unfold ret at 1.
      destruct (bind (getAppsAndFolders W credentials) _ d) as [[t d'] r].
      unfold trace. simpl. eexists. reflexivity.
    + eexists. reflexivity.
  - intros Hno. unfold deleteApp. unfold bind at 1. unfold bind at 1. unfold confirm at 1.
    unfold bind at 1. unfold emit at 1, ret at 1.
    fold (delete_app_question appName). rewrite Hno. reflexivity.
Qed.

Lemma X13_witness :
  deleteApp (sample_world false [] [app_named "ghost" "a1"] (Returned tt) (Returned tt))
    "ghost" sample_session true FormatDefault None
  = ([Prompt "Are you sure you want to delete ghost?"], None, Exited 0%Z).
Proof.
  apply (proj2 (proj2 (X13_delete_app_confirmation
                         (sample_world false [] [app_named "ghost" "a1"]
                            (Returned tt) (Returned tt))
                         "ghost" sample_session FormatDefault None))).
  reflexivity.
Defined.

(** X15: [createAppForTable] sends exactly one POST, to the page generator,
    in every run; when the reply arrives, the function returns if the reply
    carries a non-empty page uuid and otherwise reports the error and exits
    with code 1 (the request having been sent). *)
Theorem X15_create_app_needs_a_page_uuid
    (W : World) (appName tableName columnName : string) (credentials : Session)
    (format : OutputFormat) (d : Disk) :
  posts_of (trace (createAppForTable W appName tableName columnName credentials format d))
  = [autogenerate_url credentials]
  /\ forall pageUuid text,
       autogenerate_reply W
         [("appName", Some appName);
          ("resourceName", retoolDBUuid (stored credentials));
          ("tableName", Some tableName);
          ("columnName", Some columnName)]
       = Returned (pageUuid, text) ->
       (outcome (createAppForTable W appName tableName columnName credentials format d)
        = Returned tt
        <-> exists uuid, pageUuid = Some uuid /\ uuid <> "")
       /\ ((pageUuid = None \/ pageUuid = Some "") ->
           createAppForTable W appName tableName columnName credentials format d
           = ([PostRequest (autogenerate_url credentials)
                 [("appName", Some appName);
                  ("resourceName", retoolDBUuid (stored credentials));
                  ("tableName", Some tableName);
                  ("columnName", Some columnName)];
               ConsoleError "Error creating app.";
               ConsoleError text],
              d, Exited 1%Z)).
Proof.
  unfold createAppForTable, postRequest, bind, emit, settle, exit, ret, trace, outcome.
  fold (autogenerate_url credentials).
  cbn -[String.append String.eqb].
  destruct (autogenerate_reply W _) as [[pageUuid text] | code | error] eqn:Hreply.
  - cbn -[String.append String.eqb].
    assert (Hcases : (exists uuid, pageUuid = Some uuid /\ uuid <> ""
                                   /\ truthy pageUuid = Some uuid)
                     \/ ((pageUuid = None \/ pageUuid = Some "") /\ truthy pageUuid = None)).
    { destruct pageUuid as [uuid | ]; simpl.
      - destruct (String.eqb_spec uuid "") as [-> | Hne]; [right; auto | left; eauto].
      - right; auto. }
    destruct Hcases as [(uuid & -> & Hne & Htruthy) | [Hempty Htruthy]]; rewrite Htruthy.
    + split; [destruct format; reflexivity | ].
      intros p t E. injection E as <- <-. split.
      * split; [intros _; eauto | intros _; destruct format; reflexivity].
      * intros [E | E]; [discriminate E | injection E as ->; now contradiction Hne].
    + split; [reflexivity | ].
      intros p t E. injection E as <- <-. split.
      * split; [discriminate | ].
        intros (uuid & -> & Hne). destruct Hempty as [E | E];
          [discriminate E | injection E as ->; now contradiction Hne].
      * intros _. reflexivity.
  - split; [reflexivity | discriminate].
  - split; [reflexivity | discriminate].
Qed.

Lemma X15_witness :
  createAppForTable
    (sample_world_with login_answers (mkPagesData None None) (Some "", "{}") true None)
    "orders App" "orders" "name" sample_session FormatDefault None
  = ([PostRequest "https://my-org.retool.com/api/pages/autogeneratePage"
        [("appName", Some "orders App"); ("resourceName", Some "db-uuid-1");
         ("tableName", Some "orders"); ("columnName", Some "name")];
      ConsoleError "Error creating app.";
      ConsoleError "{}"],
     None, Exited 1%Z).
Proof.
  apply (proj2 (proj2 (X15_create_app_needs_a_page_uuid
                         (sample_world_with login_answers (mkPagesData None None)
                            (Some "", "{}") true None)
                         "orders App" "orders" "name" sample_session FormatDefault None)
                  (Some "") "{}" eq_refl)).
  now right.
Defined.

(* ===================================================================== *)
(** ** The modes of the scaffold command                                  *)
(* ===================================================================== *)

Ltac plain_io_is_not bad :=
  let e := fresh "e" in
  intros e; destruct e; simpl; congruence.








(** X17: two edges of JavaScript truthiness in the choice of the mode.  An
    empty table name after -d is falsy: the handler behaves as if -d had not
    been given, and so creates instead of deleting.  An empty list of CSV
    files is truthy: the handler stays in the from-csv mode and, with
    nothing to loop over, returns right after obtaining the credentials,
    even when a table name and columns are given too. *)
Theorem X17_empty_delete_name_and_empty_csv_list (W : World) (argv : Argv.t) (d : Disk) :
  (Argv.delete argv = Some "" -> handler W argv d = handler W (without_delete argv) d)
  /\ (truthy (Argv.delete argv) = None ->
      Argv.f argv = Some [] ->
      forall credentials,
        getAndVerifyCredentialsWithRetoolDB_end W = Returned credentials ->
        handler W argv d
        = ([Await GetAndVerifyCredentialsWithRetoolDB; Detached LogDAU], d, Returned tt)).
Proof.
  split.
  - intros Hempty. unfold handler, without_delete.
    cbn [Argv.delete Argv.f Argv.name Argv.columns Argv.no_workflow].
    rewrite Hempty. reflexivity.
  - intros Hdelete Hcsv credentials Hcredentials.
    unfold handler. rewrite Hdelete, Hcsv.
    unfold await, bind, emit, settle, ret. rewrite Hcredentials. reflexivity.
Qed.

Lemma X17_witness :
  handler (sample_world true [] [] (Returned tt) (Returned tt))
    (scaffold_from_csv [] false) None
  = ([Await GetAndVerifyCredentialsWithRetoolDB; Detached LogDAU], None, Returned tt)
  /\ trace (handler (sample_world true [] [app_named "orders App" "a1"]
                       (Returned tt) (Returned tt))
              {| Argv.name := Some "orders"; Argv.columns := Some ["name"];
                 Argv.delete := Some ""; Argv.f := None;
                 Argv.no_workflow := true; Argv.force := false |} None)
     = trace (handler (sample_world true [] [app_named "orders App" "a1"]
                         (Returned tt) (Returned tt))
                (scaffold_create "orders" ["name"] true) None).
Proof.
  split.
  - apply (proj2 (X17_empty_delete_name_and_empty_csv_list
                    (sample_world true [] [] (Returned tt) (Returned tt))
                    (scaffold_from_csv [] false) None)
             eq_refl eq_refl sample_session eq_refl).
  - rewrite (proj1 (X17_empty_delete_name_and_empty_csv_list
                      (sample_world true [] [app_named "orders App" "a1"]
                         (Returned tt) (Returned tt))
                      {| Argv.name := Some "orders"; Argv.columns := Some ["name"];
                         Argv.delete := Some ""; Argv.f := None;
                         Argv.no_workflow := true; Argv.force := false |} None)
               eq_refl).
    reflexivity.
Defined.

(* --------------------------------------------------------------------- *)
(** *** The from-csv loop                                                 *)
(* --------------------------------------------------------------------- *)

Lemma csv_files_of_app (t1 t2 : list event) :
  csv_files_of (t1 ++ t2) = csv_files_of t1 ++ csv_files_of t2.
Proof. unfold csv_files_of. apply flat_map_app. Qed.

Lemma csv_files_of_quiet (t : list event) :
  forallb (fun e => negb (is_from_csv e)) t = true -> csv_files_of t = [].
Proof.
  induction t as [ | e t IH]; simpl; [reflexivity | ].
  intros H. apply andb_true_iff in H as [He Ht].
  rewrite (IH Ht), app_nil_r.
  destruct e as [ | | | | | | | c | ]; try reflexivity.
  destruct c; try reflexivity. discriminate He.
Qed.

(** A loop whose body creates a table from its file, and from no other,
    has created tables for a prefix of the files, and for all of them when
    it returns. *)
Lemma for_of_csv_prefix (body : string -> Proc unit) :
  (forall x d, csv_files_of (trace (body x d)) = [x]) ->
  forall files d,
    exists rest,
      files = csv_files_of (trace (for_of files body d)) ++ rest
      /\ (outcome (for_of files body d) = Returned tt -> rest = []).
Proof.
  intros Hbody. induction files as [ | x xs IH]; intros d.
  - exists []. split; reflexivity.
  - simpl. unfold bind. specialize (Hbody x d).
    destruct (body x d) as [[t1 d1] [u | code | error]]; unfold trace, outcome in *;
      simpl in *.
    + destruct (IH d1) as (rest & Hfiles & Hdone).
      destruct (for_of xs body d1) as [[t2 d2] r]. simpl in *.
      exists rest. rewrite csv_files_of_app, Hbody. simpl.
      split; [now rewrite <- Hfiles | exact Hdone].
    + exists xs. rewrite Hbody. split; [reflexivity | discriminate].
    + exists xs. rewrite Hbody. split; [reflexivity | discriminate].
Qed.

(** The run of the handler in the from-csv mode: a loop over the files
    whose body creates a table from its file and from no other. *)
Lemma handler_csv_run (W : World) (argv : Argv.t) (csvFileNames : list string) (d : Disk) :
  truthy (Argv.delete argv) = None ->
  Argv.f argv = Some csvFileNames ->
  exists body : Session -> string -> Proc unit,
    handler W argv d
    = match getAndVerifyCredentialsWithRetoolDB_end W with
      | Returned credentials =>
          after [Await GetAndVerifyCredentialsWithRetoolDB; Detached LogDAU]
            (for_of csvFileNames (body credentials) d)
      | Exited code => ([Await GetAndVerifyCredentialsWithRetoolDB], d, Exited code)
      | Thrown error => ([Await GetAndVerifyCredentialsWithRetoolDB], d, Thrown error)
      end
    /\ (forall credentials x d0, csv_files_of (trace (body credentials x d0)) = [x]).
Proof.
  intros Hdelete Hcsv. unfold handler. rewrite Hdelete, Hcsv. cbv zeta.
  eexists. split.
  - unfold bind at 1. unfold await at 1. unfold bind at 1. unfold emit at 1, settle at 1.
    destruct (getAndVerifyCredentialsWithRetoolDB_end W) as [credentials | code | error];
      [ | reflexivity | reflexivity].
    unfold bind at 1. unfold emit at 1. unfold after, trace, disk_after, outcome.
    match goal with
    | |- context [for_of csvFileNames ?b d] =>
        instantiate (1 := fun credentials => _);
        destruct (for_of csvFileNames b d) as [[t d'] r] eqn:Hloop
    end.
    cbv beta. rewrite Hloop. reflexivity.
  - intros credentials x d0. cbv beta.
    unfold bind at 1. unfold await at 1. unfold bind at 1.
    unfold emit at 1, settle at 1.
    destruct (createTableFromCSV_end W x) as [created | code | error]; try reflexivity.
    match goal with
    | |- context [bind ?m ?k d0] =>
        assert (Hquiet : never_emits is_from_csv (bind m k))
    end.
    { apply never_emits_bind; [quiet | intros _].
      apply never_emits_bind; [quiet | intros _].
      apply never_emits_bind; [ | intros _; quiet].
      apply createAppForTable_io. plain_io_is_not is_from_csv. }
    specialize (Hquiet d0). apply csv_files_of_quiet in Hquiet.
    match goal with
    | |- context [bind ?m ?k d0] => destruct (bind m k d0) as [[t2 d2] r]
    end.
    unfold trace in *. simpl in *. now rewrite Hquiet.
Qed.

(** X19: in the from-csv mode the files are processed one after the other
    in the order given, each at most once, and the first failure stops the
    loop: the files tables were created from form a prefix of the list, and
    the whole list whenever the handler returns. *)
Theorem X19_csv_files_are_processed_in_order
    (W : World) (argv : Argv.t) (csvFileNames : list string) (d : Disk) :
  truthy (Argv.delete argv) = None ->
  Argv.f argv = Some csvFileNames ->
  exists rest,
    csvFileNames = csv_files_of (trace (handler W argv d)) ++ rest
    /\ (outcome (handler W argv d) = Returned tt -> rest = []).
Proof.
  intros Hdelete Hcsv.
  destruct (handler_csv_run W argv csvFileNames d Hdelete Hcsv) as (body & -> & Hbody).
  destruct (getAndVerifyCredentialsWithRetoolDB_end W) as [credentials | code | error];
    try (exists csvFileNames; split; [reflexivity | discriminate]).
  destruct (for_of_csv_prefix (body credentials) (Hbody credentials) csvFileNames d)
    as (rest & Hfiles & Hdone).
  exists rest. unfold after. split; [exact Hfiles | exact Hdone].
Qed.

Lemma X19_witness :
  csv_files_of
    (trace (handler
              (sample_world_with login_answers (mkPagesData None None)
                 (Some "page-uuid-1", "{}") true None)
              (scaffold_from_csv ["a.csv"; "broken.csv"; "c.csv"] true) None))
  = ["a.csv"; "broken.csv"].
Proof.
  destruct (X19_csv_files_are_processed_in_order
              (sample_world_with login_answers (mkPagesData None None)
                 (Some "page-uuid-1", "{}") true None)
              (scaffold_from_csv ["a.csv"; "broken.csv"; "c.csv"] true)
              ["a.csv"; "broken.csv"; "c.csv"] None eq_refl eq_refl)
    as (rest & _ & _).
  reflexivity.
Defined.

(* --------------------------------------------------------------------- *)
(** *** The plain create mode                                             *)
(* --------------------------------------------------------------------- *)

Lemma createAppForTable_only_io (W : World) (appName tableName columnName : string)
    (credentials : Session) (format : OutputFormat) (d : Disk) (e : event) :
  In e (trace (createAppForTable W appName tableName columnName credentials format d)) ->
  is_plain_io e = true.
Proof.
  intros Hin.
  pose proof (createAppForTable_io (fun e => negb (is_plain_io e)) W appName tableName
                columnName credentials format
                (fun e He => eq_trans (f_equal negb He) eq_refl) d) as H.
  rewrite forallb_forall in H. specialize (H _ Hin).
  now rewrite negb_involutive in H.
Qed.

Ltac run_case_io :=
  match goal with
  | |- context [match ?x with Returned _ => _ | Exited _ => _ | Thrown _ => _ end] =>
      lazymatch x with
      | context [match _ with _ => _ end] => fail
      | _ => destruct x as [? | ? | ?] eqn:?
      end
  | |- context [truthy ?x] => destruct (truthy x)
  | |- context [Argv.columns ?a] => destruct (Argv.columns a) as [[ | ? ?] | ]
  | |- context [Argv.no_workflow ?a] => destruct (Argv.no_workflow a)
  | |- context [createAppForTable ?W ?a ?b ?c ?cr ?f ?d] =>
      let H := fresh "Hio" in
      pose proof (createAppForTable_only_io W a b c cr f d) as H;
      destruct (createAppForTable W a b c cr f d) as [[? ?] ?]
  end.

Ltac run_cases_io :=
  repeat (unfold bind; cbn -[createAppForTable String.append]; run_case_io).

Ltac absurd_membership Hin :=
  repeat match type of Hin with
         | _ \/ _ => destruct Hin as [Hin | Hin]
         end;
  try discriminate Hin; try contradiction;
  match goal with
  | Hio : forall e, In e _ -> is_plain_io e = true |- _ =>
      specialize (Hio _ Hin); discriminate Hio
  end.

(** X20: the plain create mode asks interactively only for what the command
    line does not give.  It asks for the table name only when none (or an
    empty one) was given, and then always does, once the credentials are
    there; it asks for the columns only when none (or an empty list) were
    given. *)
Theorem X20_create_mode_asks_only_for_what_is_missing
    (W : World) (argv : Argv.t) (d : Disk) :
  truthy (Argv.delete argv) = None ->
  Argv.f argv = None ->
  (In (Await CollectTableName) (trace (handler W argv d)) ->
   truthy (Argv.name argv) = None)
  /\ (In (Await CollectColumnNames) (trace (handler W argv d)) ->
      Argv.columns argv = None \/ Argv.columns argv = Some [])
  /\ (forall credentials,
        getAndVerifyCredentialsWithRetoolDB_end W = Returned credentials ->
        truthy (Argv.name argv) = None ->
        In (Await CollectTableName) (trace (handler W argv d))).
Proof.
  intros Hdelete Hf. unfold handler. rewrite Hdelete, Hf.
  unfold await, emit, settle, ret.
  split; [ | split].
  - run_cases_io; cbn -[String.append]; intros Hin; try reflexivity;
      exfalso; absurd_membership Hin.
  - run_cases_io; cbn -[String.append]; intros Hin; auto;
      exfalso; absurd_membership Hin.
  - intros credentials Hcredentials Hname. rewrite Hcredentials, Hname.
    run_cases_io; cbn -[String.append]; do 2 right; left; reflexivity.
Qed.

Lemma X20_witness :
  In (Await CollectTableName)
    (trace (handler (sample_world true [] [] (Returned tt) (Returned tt))
              {| Argv.name := Some ""; Argv.columns := Some ["name"];
                 Argv.delete := None; Argv.f := None;
                 Argv.no_workflow := true; Argv.force := false |} None)).
Proof.
  apply (proj2 (proj2 (X20_create_mode_asks_only_for_what_is_missing
                         (sample_world true [] [] (Returned tt) (Returned tt))
                         {| Argv.name := Some ""; Argv.columns := Some ["name"];
                            Argv.delete := None; Argv.f := None;
                            Argv.no_workflow := true; Argv.force := false |} None
                         eq_refl eq_refl))
           sample_session eq_refl eq_refl).
Defined.

(** X21: when no column is given and the user enters none, the table is
    created without columns and, the detached [insertSampleData] not
    failing, the app is created with the search column id, the fallback of
    [searchColumnName]. *)
Theorem X21_no_columns_search_by_id
    (W : World) (argv : Argv.t) (d : Disk) (credentials : Session) (tableName : string) :
  truthy (Argv.delete argv) = None ->
  Argv.f argv = None ->
  truthy (Argv.name argv) = Some tableName ->
  Argv.columns argv = None \/ Argv.columns argv = Some [] ->
  getAndVerifyCredentialsWithRetoolDB_end W = Returned credentials ->
  collectColumnNames_end W = Returned [] ->
  createTable_end W tableName [] = Returned tt ->
  outcome (insertSampleData W tableName credentials d) = Returned tt ->
  (Argv.no_workflow argv = false -> generateCRUDWorkflow_end W tableName = Returned tt) ->
  handler W argv d
  = after ([Await GetAndVerifyCredentialsWithRetoolDB; Detached LogDAU;
            Await CollectColumnNames;
            Await (CreateTable tableName []);
            Detached (InsertSampleData tableName)]
             ++ (if Argv.no_workflow argv then []
                 else [ConsoleLog LF; Await (GenerateCRUDWorkflow tableName)])
             ++ [ConsoleLog LF])
      (createAppForTable W (tableName ++ " App") tableName "id" credentials
         FormatDefault d).
Proof.
  intros Hdelete Hf Hname Hcolumns Hcredentials Hcollected Htable _ Hworkflow.
  unfold handler. rewrite Hdelete, Hf, Hname.
  unfold await, emit, settle, ret, bind.
  rewrite Hcredentials. cbn -[createAppForTable String.append].
  assert (Hasked :
            match Argv.columns argv with
            | Some (c :: cs) => fun d0 : Disk => ([], d0, Returned (c :: cs))
            | _ => fun d0 : Disk =>
                     ([Await CollectColumnNames], d0, collectColumnNames_end W)
            end d
            = ([Await CollectColumnNames], d, Returned [])).
  { destruct Hcolumns as [-> | ->]; now rewrite Hcollected. }
  match goal with
  | |- context [match Argv.columns argv with _ => _ end d] =>
      match type of Hasked with
      | ?lhs = _ => change (match Argv.columns argv with
                            | Some (c :: cs) => _
                            | _ => _
                            end d) with lhs
      end
  end.
  rewrite Hasked. cbn -[createAppForTable String.append].
  rewrite Htable. cbn -[createAppForTable String.append].
  unfold after, trace, disk_after, outcome.
  destruct (Argv.no_workflow argv); cbn -[createAppForTable String.append].
  - destruct (createAppForTable W (tableName ++ " App") tableName "id" credentials
                FormatDefault d) as [[t d'] r].
    reflexivity.
  - rewrite (Hworkflow eq_refl). cbn -[createAppForTable String.append].
    destruct (createAppForTable W (tableName ++ " App") tableName "id" credentials
                FormatDefault d) as [[t d'] r].
    reflexivity.
Qed.

Lemma X21_witness :
  posts_of
    (trace (handler
              (sample_world_with login_answers (mkPagesData None None)
                 (Some "page-uuid-1", "{}") true None)
              {| Argv.name := Some "orders"; Argv.columns := None;
                 Argv.delete := None; Argv.f := None;
                 Argv.no_workflow := false; Argv.force := false |} None))
  = ["https://my-org.retool.com/api/pages/autogeneratePage"].
Proof.
  rewrite (X21_no_columns_search_by_id
             (sample_world_with login_answers (mkPagesData None None)
                (Some "page-uuid-1", "{}") true None)
             {| Argv.name := Some "orders"; Argv.columns := None;
                Argv.delete := None; Argv.f := None;
                Argv.no_workflow := false; Argv.force := false |} None
             sample_session "orders" eq_refl eq_refl eq_refl (or_introl eq_refl)
             eq_refl eq_refl eq_refl eq_refl (fun _ => eq_refl)).
  reflexivity.
Defined.

(* --------------------------------------------------------------------- *)
(** *** The detached population of the new table                          *)
(* --------------------------------------------------------------------- *)


